(** * Center-crop binding of the vision transforms host object

    A shallow embedding of
    [react-native-pytorch-core/cxx/src/torchlive/vision/TransformsHostObject.cpp]
    and the properties of its [centerCrop] factory and of the callable the
    factory produces. *)

From Stdlib Require Import ZArith Ascii String DecimalString DecimalPos DecimalZ Lia Bool.
From Stdlib Require Import Floats.SpecFloat.
From stdpp Require Import base list.

Local Open Scope Z_scope.

(** ** Outcomes of native code

    A call either returns, throws a C++ exception, or has no defined
    behaviour (an out-of-bounds read, a conversion whose value does not fit
    the destination type). *)

Inductive Exception : Type :=
| JSError (message : string)       (* jsi::JSError, line 106 *)
| JSINativeException               (* thrown by jsi::Value::asNumber *)
| ArgumentTypeError                (* the argument-type error of parseTensor *)
| c10_Error                        (* a failed TORCH_CHECK *)
| c10_IndexError                   (* a dimension or index out of range *)
| NotCallable.                     (* the engine was asked to call a non-function *)

Inductive Outcome (A : Type) : Type :=
| Returned (a : A)
| Thrown (e : Exception)
| Undefined.

Arguments Returned {A} a.
Arguments Thrown {A} e.
Arguments Undefined {A}.

Definition Outcome_bind {A B : Type} (m : Outcome A) (k : A → Outcome B)
  : Outcome B :=
  match m with
  | Returned a => k a
  | Thrown e => Thrown e
  | Undefined => Undefined
  end.

(** ** Machine integers of the C++ code *)

Module CInt.

(** [int] is 32 bits wide, two's complement. *)
Definition INT_MIN : Z := - 2 ^ 31.
Definition INT_MAX : Z := 2 ^ 31 - 1.

Definition in_range (z : Z) : Prop := INT_MIN ≤ z ≤ INT_MAX.

Definition in_rangeb (z : Z) : bool := (INT_MIN <=? z) && (z <=? INT_MAX).

(** Conversion of a wider integer to [int]: the value modulo 2^32, read as
    a signed number. *)
Definition of_Z (z : Z) : Z := (z + 2 ^ 31) mod 2 ^ 32 - 2 ^ 31.

(** [a - b] on [int]: the behaviour is undefined when the difference is
    not a value of [int]. *)
Definition sub (a b : Z) : Outcome Z :=
  if in_rangeb (a - b) then Returned (a - b) else Undefined.

(** [a / b] on [int] truncates toward zero; the behaviour is undefined for a
    zero divisor and when the quotient is not a value of [int]. *)
Definition div (a b : Z) : Outcome Z :=
  if (b =? 0) || negb (in_rangeb (a ÷ b)) then Undefined
  else Returned (a ÷ b).

(** [std::min] on [int]. *)
Definition min (a b : Z) : Z := if b <? a then b else a.

(** [a - b] on [size_t], which is unsigned and 64 bits wide: the
    difference wraps around when [b] is larger than [a]. *)
Definition size_t_sub (a b : Z) : Z :=
  if b <=? a then a - b else a - b + 2 ^ 64.

End CInt.

(** ** Tensors of the native library

    A tensor handle is a view: a shape, the strides of the view and its
    offset into the storage.  Each dimension is kept with its stride, so
    that the two sequences have the same length by construction. *)

Record Dim : Type := mkDim { dim_size : Z; dim_stride : Z }.

Record Tensor : Type := mkTensor {
  storage_offset : Z;
  tensor_dims : list Dim
}.

(** [tensor.sizes()], an array of 64-bit integers. *)
Definition sizes (t : Tensor) : list Z := dim_size <$> tensor_dims t.

(** [tensor.ndimension()]. *)
Definition ndimension (t : Tensor) : Z := Z.of_nat (length (tensor_dims t)).

(** [ArrayRef::operator[]]: the index is unsigned and is not checked; reading
    outside of the array has no defined behaviour, which is [None] here. *)
Definition at_index {A : Type} (l : list A) (i : Z) : option A :=
  if (0 <=? i) && (i <? Z.of_nat (length l)) then l !! Z.to_nat i else None.

Module ATen.

(** [c10::maybe_wrap_dim]: an index in [-n, n-1] counts from the end when
    negative; any other index is an IndexError.  A size of zero is treated
    as one. *)
Definition maybe_wrap_dim (dim dim_post_expr : Z) : Outcome Z :=
  let n := if dim_post_expr <=? 0 then 1 else dim_post_expr in
  if (dim <? - n) || (n - 1 <? dim) then Thrown c10_IndexError
  else Returned (if dim <? 0 then dim + n else dim).

(** [at::narrow(self, dim, start, length)] of the native tensor library:
    the view of [self] that keeps the indices [start, start + length) of
    dimension [dim].  The library checks the range and throws when it does
    not lie inside the dimension. *)
Definition narrow (self : Tensor) (dim start length : Z) : Outcome Tensor :=
  if ndimension self <=? 0 then Thrown c10_Error else
  Outcome_bind (maybe_wrap_dim dim (ndimension self)) (λ d,
    match tensor_dims self !! Z.to_nat d with
    | None => Thrown c10_IndexError
    | Some cur =>
        let cur_size := dim_size cur in
        Outcome_bind
          (if start =? cur_size then Returned start
           else maybe_wrap_dim start cur_size) (λ start,
            if (0 <=? length) && (start <=? cur_size - length) then
              Returned
                {| storage_offset :=
                     storage_offset self + start * dim_stride cur;
                   tensor_dims :=
                     <[Z.to_nat d := mkDim length (dim_stride cur)]>
                       (tensor_dims self) |}
            else Thrown c10_Error)
    end).

End ATen.

(** ** Values and objects of the scripting runtime *)

(** [jsi::Value].  A number is an IEEE-754 double; an object is a reference
    into the runtime's objects. *)
Inductive Value : Type :=
| VUndefined
| VNull
| VBool (b : bool)
| VNumber (d : spec_float)
| VString (s : string)
| VObject (ref : nat).

(** Modelled from the spec: [torchlive::torch::TensorHostObject], a class of
    this repository that is declared in another file.  It is the host object
    that wraps a tensor handle; the binding reads its member [tensor] (line
    111) and constructs one around the cropped tensor (lines 135-137). *)
Record TensorHostObject : Type := mkTensorHostObject { tensor : Tensor }.

(** The two lambdas of [createCenterCrop], with what each captures:
    [centerCropFactoryFunc] captures nothing (line 87), [centerCropFunc]
    captures [width] and [height] by value (line 100). *)
Inductive HostFunctionType : Type :=
| centerCropFactoryFunc_closure
| centerCropFunc_closure (width height : Z).

Inductive JSObject : Type :=
| PlainObject
| HostObject (o : TensorHostObject)
| HostFunction (name : string) (paramCount : Z) (func : HostFunctionType).

(** [jsi::Runtime]: the objects created so far; a reference is a position. *)
Abbreviation Runtime := (list JSObject).

(** Native code that runs against a runtime. *)
Definition JSI (A : Type) : Type := Runtime → Outcome (A * Runtime).

Definition JSI_bind {A B : Type} (m : JSI A) (k : A → JSI B) : JSI B :=
  λ rt, match m rt with
        | Returned (a, rt') => k a rt'
        | Thrown e => Thrown e
        | Undefined => Undefined
        end.

Definition JSI_lift {A : Type} (o : Outcome A) : JSI A :=
  λ rt, match o with
        | Returned a => Returned (a, rt)
        | Thrown e => Thrown e
        | Undefined => Undefined
        end.

Definition throw {A : Type} (e : Exception) : JSI A := λ _, Thrown e.

Declare Scope jsi_scope.
Delimit Scope jsi_scope with jsi.
Notation "x <- m ;; k" := (JSI_bind m (λ x, k))
  (at level 100, m at next level, right associativity) : jsi_scope.

(** [jsi::Value::asNumber]. *)
Definition asNumber (v : Value) : Outcome spec_float :=
  match v with
  | VNumber d => Returned d
  | _ => Thrown JSINativeException
  end.

(** The integral part of a double, when it has one: the fractional part is
    discarded. *)
Definition truncate (d : spec_float) : option Z :=
  match d with
  | S754_zero _ => Some 0
  | S754_finite s m e =>
      let a := Z.shiftl (Z.pos m) e in Some (if s then - a else a)
  | S754_infinity _ | S754_nan => None
  end.

(** The implicit conversion of a [double] to [int] (lines 94 and 97): the
    value is truncated; the behaviour is undefined when the truncated value
    does not fit [int]. *)
Definition double_to_int (d : spec_float) : Outcome Z :=
  match truncate d with
  | Some z => if CInt.in_rangeb z then Returned z else Undefined
  | None => Undefined
  end.

(** [std::to_string] on an [int]. *)
Definition to_string (z : Z) : string := NilZero.string_of_int (Z.to_int z).

(** [jsi::Object::createFromHostObject]. *)
Definition createFromHostObject (o : TensorHostObject) : JSI Value :=
  λ rt, Returned (VObject (length rt), rt ++ [HostObject o]).

(** [jsi::Function::createFromHostFunction]. *)
Definition createFromHostFunction
    (name : string) (paramCount : Z) (func : HostFunctionType) : JSI Value :=
  λ rt, Returned (VObject (length rt), rt ++ [HostFunction name paramCount func]).

(** Modelled from the spec: [utils::helpers::parseTensor], declared in
    [../torch/utils/helpers.h], whose definition is not part of this file.
    The argument must be resolvable to a tensor handle; anything else fails
    with an argument-type error raised to the calling script. *)
Definition parseTensor (jsValue : Value) : JSI TensorHostObject :=
  λ rt, match jsValue with
        | VObject ref =>
            match rt !! ref with
            | Some (HostObject o) => Returned (o, rt)
            | _ => Thrown ArgumentTypeError
            end
        | _ => Thrown ArgumentTypeError
        end.

(** ** The binding *)

(** [getImageSize], lines 26-33.  The result array is the pair
    [(size[0], size[1])]: the last dimension first.  Both indices are computed
    on [size_t]; each 64-bit size is converted to [int] when it is stored. *)
Definition getImageSize (tensor : Tensor) : option (Z * Z) :=
  let sizes := sizes tensor in
  let length := Z.of_nat (length sizes) in
  size0 ← at_index sizes (CInt.size_t_sub length 1);
  size1 ← at_index sizes (CInt.size_t_sub length 2);
  Some (CInt.of_Z size0, CInt.of_Z size1).

(** Lines 116-124: the crop size [(cropHeight, cropWidth)] that a captured
    [width] and [height] resolve to on an image of the given size. *)
Definition resolveCropSize (width height : Z) (size : Z * Z) : Z * Z :=
  let cropHeight := height in
  let cropWidth := width in
  if cropWidth =? -1 then
    let minSize := CInt.min size.1 size.2 in
    (minSize, minSize)
  else if cropHeight =? -1 then
    (cropWidth, cropWidth)
  else
    (cropHeight, cropWidth).

(** Lines 126-127: the offsets [(cropTop, cropLeft)], computed on [int];
    they are not defined when a subtraction overflows. *)
Definition cropOffsets (size : Z * Z) (crop : Z * Z) : Outcome (Z * Z) :=
  let '(cropHeight, cropWidth) := crop in
  Outcome_bind
    (Outcome_bind (CInt.sub size.2 cropHeight) (λ d, CInt.div d 2))
    (λ cropTop,
      Outcome_bind
        (Outcome_bind (CInt.sub size.1 cropWidth) (λ d, CInt.div d 2))
        (λ cropLeft, Returned (cropTop, cropLeft))).

Definition from_option {A : Type} (o : option A) : Outcome A :=
  match o with
  | Some a => Returned a
  | None => Undefined
  end.

Section Binding.

(** The slicing primitive of the native tensor library, [Tensor::narrow]. *)
Variable narrow : Tensor → Z → Z → Z → Outcome Tensor.

(** Lines 131-133: the tensor is narrowed along its last two dimensions,
    the second-to-last first. *)
Definition narrowLastTwo
    (tensor : Tensor) (cropTop cropLeft cropHeight cropWidth : Z)
  : Outcome Tensor :=
  let dims := ndimension tensor in
  Outcome_bind (narrow tensor (dims - 2) cropTop cropHeight)
    (λ narrowed, narrow narrowed (dims - 1) cropLeft cropWidth).

(** The body of the lambda [centerCropFunc], lines 100-140, with the
    captured [width] and [height] as its first two arguments. *)
Definition centerCropFunc
    (width height : Z) (innerArguments : list Value) : JSI Value :=
  let innerCount := Z.of_nat (length innerArguments) in
  if negb (innerCount =? 1) then
    throw (JSError "Tensor required as argument")
  else
    (argument <- JSI_lift (from_option (innerArguments !! 0%nat)) ;;
     tensorHostObject <- parseTensor argument ;;
     let tensor := tensor tensorHostObject in
     size <- JSI_lift (from_option (getImageSize tensor)) ;;
     let '(cropHeight, cropWidth) := resolveCropSize width height size in
     offsets <- JSI_lift (cropOffsets size (cropHeight, cropWidth)) ;;
     let '(cropTop, cropLeft) := offsets in
     tensor <- JSI_lift
       (narrowLastTwo tensor cropTop cropLeft cropHeight cropWidth) ;;
     createFromHostObject (mkTensorHostObject tensor))%jsi.

(** [arguments[i].asNumber()] stored into an [int]. *)
Definition int_argument (arguments : list Value) (i : nat) : Outcome Z :=
  Outcome_bind (from_option (arguments !! i))
    (λ v, Outcome_bind (asNumber v) double_to_int).

(** The body of the lambda [centerCropFactoryFunc], lines 87-150. *)
Definition centerCropFactoryFunc (arguments : list Value) : JSI Value :=
  let count := Z.of_nat (length arguments) in
  (width <- JSI_lift
     (if 0 <? count then int_argument arguments 0 else Returned (-1)) ;;
   height <- JSI_lift
     (if 1 <? count then int_argument arguments 1 else Returned (-1)) ;;
   createFromHostFunction
     (String.append "CenterCrop("
        (String.append (to_string width)
           (String.append ", " (String.append (to_string height) ")"))))
     1
     (centerCropFunc_closure width height))%jsi.

(** [TransformsHostObject::createCenterCrop], lines 86-157. *)
Definition CENTER_CROP : string := "centerCrop".

Definition createCenterCrop : JSI Value :=
  createFromHostFunction CENTER_CROP 1 centerCropFactoryFunc_closure.

(** Running a host function: the lambda it was created from is applied to
    the arguments of the call. *)
Definition callHostFunction
    (func : HostFunctionType) (arguments : list Value) : JSI Value :=
  match func with
  | centerCropFactoryFunc_closure => centerCropFactoryFunc arguments
  | centerCropFunc_closure width height =>
      centerCropFunc width height arguments
  end.

(** A call [f(arguments)] made by the script. *)
Definition call (f : Value) (arguments : list Value) : JSI Value :=
  λ rt, match f with
        | VObject ref =>
            match rt !! ref with
            | Some (HostFunction _ _ func) =>
                callHostFunction func arguments rt
            | _ => Thrown NotCallable
            end
        | _ => Thrown NotCallable
        end.

End Binding.

(** ** Tensors used as examples *)

(** The strides of a contiguous tensor: each is the product of the sizes
    that follow it. *)
Fixpoint contiguous_dims (sz : list Z) : list Dim :=
  match sz with
  | [] => []
  | s :: rest => mkDim s (foldr Z.mul 1 rest) :: contiguous_dims rest
  end.

Definition contiguous (sz : list Z) : Tensor := mkTensor 0 (contiguous_dims sz).

(** ** Notions used in the statements *)

(** The tensor that a value refers to, and its shape. *)
Definition tensor_of (rt : Runtime) (v : Value) : option Tensor :=
  match v with
  | VObject ref =>
      match rt !! ref with
      | Some (HostObject o) => Some (tensor o)
      | _ => None
      end
  | _ => None
  end.

Definition shape_of (rt : Runtime) (v : Value) : option (list Z) :=
  sizes <$> tensor_of rt v.

(** What [narrow] does on the dimension at position [length l1]. *)
Definition narrowed_view (t : Tensor) (l1 : list Dim) (d : Dim) (l2 : list Dim)
    (start len : Z) : Tensor :=
  {| storage_offset := storage_offset t + start * dim_stride d;
     tensor_dims := l1 ++ mkDim len (dim_stride d) :: l2 |}.

(** The value and runtime after a tensor has been wrapped and handed back. *)
Definition handed_back (rt : Runtime) (o : Outcome Tensor)
  : Outcome (Value * Runtime) :=
  match o with
  | Returned t =>
      Returned (VObject (length rt), rt ++ [HostObject (mkTensorHostObject t)])
  | Thrown e => Thrown e
  | Undefined => Undefined
  end.

(** The double that holds the integer [z], and the script value for it. *)
Definition double (z : Z) : spec_float := binary_normalize 53 1024 z 0 false.

Definition number (z : Z) : Value := VNumber (double z).

Definition outcome_shape (r : Outcome (Value * Runtime))
  : Outcome (option (list Z)) :=
  match r with
  | Returned (v, rt) => Returned (shape_of rt v)
  | Thrown e => Thrown e
  | Undefined => Undefined
  end.

(** In a fresh runtime: the host object creates its [centerCrop] function,
    the tensor is wrapped, the script calls the factory on [arguments] and
    the callable it gets on the tensor.  The result is the shape of the
    tensor that comes back. *)
Definition centerCrop_applied (arguments : list Value) (t : Tensor)
  : Outcome (option (list Z)) :=
  outcome_shape
    ((centerCrop <- createCenterCrop ;;
      image <- createFromHostObject (mkTensorHostObject t) ;;
      crop <- call ATen.narrow centerCrop arguments ;;
      call ATen.narrow crop [image])%jsi []).

(** The exceptions that the tensor library throws. *)
Definition from_library (e : Exception) : Prop :=
  e = c10_Error ∨ e = c10_IndexError.

(** ** The host object *)

Module TransformsHostObject.

(** The object holds one member, [centerCrop_]. *)
Record t : Type := mk { centerCrop_ : Value }.

(** Lines 43 and 47: both lists of names are empty. *)
Definition PROPERTIES : list string := [].
Definition METHODS : list string := [].

(** The constructor, lines 49-50. *)
Definition make : JSI t :=
  (centerCrop <- createCenterCrop ;; λ rt, Returned (mk centerCrop, rt))%jsi.

(** [getPropertyNames], lines 52-62: the names of [PROPERTIES], then those
    of [METHODS], each pushed at the back of the result. *)
Definition getPropertyNames : list string :=
  let result := [] in
  let result := fold_left (λ result property, result ++ [property])
                  PROPERTIES result in
  let result := fold_left (λ result method, result ++ [method])
                  METHODS result in
  result.

(** [get], lines 64-74. *)
Definition get (this : t) (name : string) : Value :=
  if String.eqb name CENTER_CROP then centerCrop_ this else VUndefined.

End TransformsHostObject.

(** ** Further notions used in the statements *)

(** The position in the storage of the element at [index]: the offset of the
    view plus each index times the stride of its dimension. *)
Definition element_offset (t : Tensor) (index : list Z) : Z :=
  storage_offset t
  + foldr Z.add 0 (zip_with (λ i d, i * dim_stride d) index (tensor_dims t)).

(** The name that line 146 gives to the callable that captures [width] and
    [height]. *)
Definition centerCrop_name (width height : Z) : string :=
  String.append "CenterCrop("
    (String.append (to_string width)
       (String.append ", " (String.append (to_string height) ")"))).

(** Every callable of the runtime that captures a crop size carries the name
    of that size, takes one parameter and captures two values of [int]. *)
Definition callables_consistent (rt : Runtime) : Prop :=
  ∀ (i : nat) (name : string) (paramCount width height : Z),
    rt !! i = Some (HostFunction name paramCount
                      (centerCropFunc_closure width height)) →
    name = centerCrop_name width height ∧ paramCount = 1
    ∧ CInt.in_range width ∧ CInt.in_range height.

(** The value is a number. *)
Definition is_number (v : Value) : bool :=
  match v with
  | VNumber _ => true
  | _ => false
  end.

(** The character [c] does not occur in [s]. *)
Fixpoint free_of (c : ascii) (s : string) : Prop :=
  match s with
  | EmptyString => True
  | String a rest => a ≠ c ∧ free_of c rest
  end.

(** ** Machine integer facts *)

Lemma of_Z_in_range z : CInt.in_range z → CInt.of_Z z = z.
Proof.
  unfold CInt.in_range, CInt.INT_MIN, CInt.INT_MAX, CInt.of_Z. intros Hz.
  rewrite Z.mod_small; lia.
Qed.

Lemma quot2_in_range z : CInt.in_range z → CInt.in_range (z ÷ 2).
Proof.
  unfold CInt.in_range, CInt.INT_MIN, CInt.INT_MAX. intros Hz.
  pose proof (Z.quot_rem' z 2) as Hq.
  destruct (Z_le_gt_dec 0 z) as [Hpos|Hneg].
  - pose proof (Z.rem_bound_pos z 2 Hpos ltac:(lia)). lia.
  - pose proof (Z.rem_bound_pos_neg z 2 ltac:(lia) ltac:(lia)). lia.
Qed.

Lemma in_rangeb_spec z : CInt.in_rangeb z = true ↔ CInt.in_range z.
Proof.
  unfold CInt.in_rangeb, CInt.in_range.
  by rewrite andb_true_iff, !Z.leb_le.
Qed.

Lemma sub_in_range a b :
  CInt.in_range (a - b) → CInt.sub a b = Returned (a - b).
Proof. intros Hd. unfold CInt.sub. apply in_rangeb_spec in Hd. by rewrite Hd. Qed.

Lemma sub_overflow a b : ¬ CInt.in_range (a - b) → CInt.sub a b = Undefined.
Proof.
  intros Hd. unfold CInt.sub.
  destruct (CInt.in_rangeb (a - b)) eqn:Hr; [|done].
  by apply in_rangeb_spec in Hr.
Qed.

Lemma div2_in_range z : CInt.in_range z → CInt.div z 2 = Returned (z ÷ 2).
Proof.
  intros Hz. unfold CInt.div. cbn [Z.eqb orb].
  apply quot2_in_range, in_rangeb_spec in Hz. by rewrite Hz.
Qed.

Lemma quot2_nonneg z : 0 ≤ z → z ÷ 2 = z `div` 2.
Proof. intros Hz. apply Z.quot_div_nonneg; lia. Qed.

Lemma min_spec a b : CInt.min a b = Z.min a b.
Proof. unfold CInt.min. destruct (Z.ltb_spec b a); lia. Qed.

(** ** Reading the image size *)

Lemma at_index_lookup {A : Type} (l : list A) (i : nat) :
  (i < length l)%nat → at_index l (Z.of_nat i) = l !! i.
Proof.
  intros Hi. unfold at_index.
  rewrite Nat2Z.id.
  destruct (Z.leb_spec 0 (Z.of_nat i)); [|lia].
  destruct (Z.ltb_spec (Z.of_nat i) (Z.of_nat (length l))); [done|lia].
Qed.

Lemma at_index_out {A : Type} (l : list A) (i : Z) :
  Z.of_nat (length l) ≤ i → at_index l i = None.
Proof.
  intros Hi. unfold at_index.
  destruct (Z.ltb_spec i (Z.of_nat (length l))); [lia|].
  by rewrite andb_false_r.
Qed.

Lemma getImageSize_last_two (t : Tensor) (pre : list Z) (H W : Z) :
  sizes t = pre ++ [H; W] →
  getImageSize t = Some (CInt.of_Z W, CInt.of_Z H).
Proof.
  intros Hs. unfold getImageSize. rewrite Hs.
  rewrite length_app. cbn [length].
  unfold CInt.size_t_sub.
  destruct (Z.leb_spec 1 (Z.of_nat (length pre + 2))); [|lia].
  destruct (Z.leb_spec 2 (Z.of_nat (length pre + 2))); [|lia].
  replace (Z.of_nat (length pre + 2) - 1) with (Z.of_nat (S (length pre)))
    by lia.
  replace (Z.of_nat (length pre + 2) - 2) with (Z.of_nat (length pre)) by lia.
  rewrite !at_index_lookup by (rewrite length_app; cbn; lia).
  rewrite !(lookup_app_r pre) by lia.
  replace (S (length pre) - length pre)%nat with 1%nat by lia.
  rewrite Nat.sub_diag. done.
Qed.

Lemma getImageSize_too_few (t : Tensor) :
  (length (sizes t) < 2)%nat → getImageSize t = None.
Proof.
  intros Hlen. unfold getImageSize.
  assert (at_index (sizes t)
            (CInt.size_t_sub (Z.of_nat (length (sizes t))) 2) = None) as ->.
  2: { by destruct (at_index (sizes t) _). }
  apply at_index_out.
  unfold CInt.size_t_sub.
  destruct (Z.leb_spec 2 (Z.of_nat (length (sizes t)))); lia.
Qed.

Lemma sizes_last_two_inv (t : Tensor) (pre : list Z) (H W : Z) :
  sizes t = pre ++ [H; W] →
  ∃ dpre sH sW,
    tensor_dims t = dpre ++ [mkDim H sH; mkDim W sW] ∧ dim_size <$> dpre = pre.
Proof.
  unfold sizes. intros Hs.
  apply fmap_app_inv in Hs as (dpre & dlast & -> & Hlast & ->).
  symmetry in Hlast.
  apply fmap_cons_inv in Hlast as ([h sh] & l1 & Hh & Hl1 & ->).
  symmetry in Hl1.
  apply fmap_cons_inv in Hl1 as ([w sw] & l2 & Hw & Hl2 & ->).
  symmetry in Hl2. apply fmap_nil_inv in Hl2 as ->.
  cbn in Hh, Hw. subst. by exists dpre, sh, sw.
Qed.

(** ** The slicing primitive on a chosen dimension *)

Lemma maybe_wrap_dim_inside (i n : Z) :
  0 ≤ i < n → ATen.maybe_wrap_dim i n = Returned i.
Proof.
  intros Hi. unfold ATen.maybe_wrap_dim.
  destruct (Z.leb_spec n 0); [lia|].
  destruct (Z.ltb_spec i (- n)); [lia|].
  destruct (Z.ltb_spec (n - 1) i); [lia|].
  destruct (Z.ltb_spec i 0); [lia|done].
Qed.

Lemma maybe_wrap_dim_returned (i n r : Z) :
  ATen.maybe_wrap_dim i n = Returned r → 0 ≤ r.
Proof.
  unfold ATen.maybe_wrap_dim.
  generalize (if n <=? 0 then 1 else n). intros m.
  destruct (Z.ltb_spec i (- m)); [done|].
  destruct (Z.ltb_spec (m - 1) i); [done|]. cbn.
  destruct (Z.ltb_spec i 0); intros [= <-]; lia.
Qed.

Lemma maybe_wrap_dim_defined (i n : Z) : ATen.maybe_wrap_dim i n ≠ Undefined.
Proof. unfold ATen.maybe_wrap_dim. by destruct (_ || _). Qed.

Lemma ATen_narrow_at (t : Tensor) (l1 : list Dim) (d : Dim) (l2 : list Dim)
    (start len : Z) :
  tensor_dims t = l1 ++ d :: l2 →
  ATen.narrow t (Z.of_nat (length l1)) start len =
  Outcome_bind
    (if start =? dim_size d then Returned start
     else ATen.maybe_wrap_dim start (dim_size d))
    (λ s, if (0 <=? len) && (s <=? dim_size d - len)
          then Returned (narrowed_view t l1 d l2 s len)
          else Thrown c10_Error).
Proof.
  intros Hd. unfold ATen.narrow, ndimension. rewrite Hd.
  rewrite length_app. cbn [length].
  destruct (Z.leb_spec (Z.of_nat (length l1 + S (length l2))) 0); [lia|].
  rewrite maybe_wrap_dim_inside by lia. cbn [Outcome_bind].
  rewrite Nat2Z.id, list_lookup_middle by done.
  rewrite insert_app_r_alt by lia. rewrite Nat.sub_diag. done.
Qed.

Lemma ATen_narrow_inside (t : Tensor) (l1 : list Dim) (d : Dim) (l2 : list Dim)
    (start len : Z) :
  tensor_dims t = l1 ++ d :: l2 →
  0 ≤ start → 0 ≤ len → start + len ≤ dim_size d →
  ATen.narrow t (Z.of_nat (length l1)) start len =
  Returned (narrowed_view t l1 d l2 start len).
Proof.
  intros Hd Hs Hl Hfit. rewrite (ATen_narrow_at t l1 d l2) by done.
  assert ((0 <=? len) && (start <=? dim_size d - len) = true) as Hchk.
  { apply andb_true_iff. split; apply Z.leb_le; lia. }
  destruct (Z.eqb_spec start (dim_size d)); cbn [Outcome_bind].
  - by rewrite Hchk.
  - rewrite maybe_wrap_dim_inside by lia. cbn [Outcome_bind]. by rewrite Hchk.
Qed.

Lemma ATen_narrow_outside (t : Tensor) (l1 : list Dim) (d : Dim) (l2 : list Dim)
    (start len : Z) :
  tensor_dims t = l1 ++ d :: l2 →
  0 ≤ dim_size d → len < 0 ∨ dim_size d < len →
  ∃ e, ATen.narrow t (Z.of_nat (length l1)) start len = Thrown e.
Proof.
  intros Hd Hsz Hout. rewrite (ATen_narrow_at t l1 d l2) by done.
  assert (∀ s, 0 ≤ s →
            (0 <=? len) && (s <=? dim_size d - len) = false) as Hchk.
  { intros s Hs. apply andb_false_iff.
    destruct Hout; [left; apply Z.leb_gt|right; apply Z.leb_gt]; lia. }
  destruct (Z.eqb_spec start (dim_size d)) as [->|Hne]; cbn [Outcome_bind].
  - rewrite Hchk by done. by eexists.
  - destruct (ATen.maybe_wrap_dim start (dim_size d)) as [s|e|] eqn:Hw;
      cbn [Outcome_bind].
    + rewrite Hchk by (by eapply maybe_wrap_dim_returned). by eexists.
    + by eexists.
    + by apply maybe_wrap_dim_defined in Hw.
Qed.

Lemma ATen_narrow_returned (t : Tensor) (l1 : list Dim) (d : Dim)
    (l2 : list Dim) (start len : Z) (t' : Tensor) :
  tensor_dims t = l1 ++ d :: l2 →
  ATen.narrow t (Z.of_nat (length l1)) start len = Returned t' →
  tensor_dims t' = l1 ++ mkDim len (dim_stride d) :: l2.
Proof.
  intros Hd. rewrite (ATen_narrow_at t l1 d l2) by done.
  destruct (if start =? dim_size d then _ else _) as [s|e|];
    cbn [Outcome_bind]; [|done..].
  destruct (_ && _); [|done].
  by intros [= <-].
Qed.

Lemma maybe_wrap_dim_thrown (i n : Z) (e : Exception) :
  ATen.maybe_wrap_dim i n = Thrown e → from_library e.
Proof.
  unfold ATen.maybe_wrap_dim. destruct (_ || _); [|done].
  intros [= <-]. by right.
Qed.

Lemma ATen_narrow_thrown (t : Tensor) (dim start len : Z) (e : Exception) :
  ATen.narrow t dim start len = Thrown e → from_library e.
Proof.
  unfold ATen.narrow.
  destruct (ndimension t <=? 0); [intros [= <-]; by left|].
  destruct (ATen.maybe_wrap_dim dim _) as [d|e1|] eqn:Hd; cbn [Outcome_bind];
    [|intros [= <-]; by eapply maybe_wrap_dim_thrown|done].
  destruct (tensor_dims t !! Z.to_nat d) as [cur|]; [|intros [= <-]; by right].
  destruct (if start =? dim_size cur then _ else _) as [s|e2|] eqn:Hs;
    cbn [Outcome_bind].
  - destruct (_ && _); [done|]. intros [= <-]. by left.
  - intros [= <-]. destruct (start =? dim_size cur); [done|].
    by eapply maybe_wrap_dim_thrown.
  - done.
Qed.

Lemma ATen_narrow_defined (t : Tensor) (dim start len : Z) :
  ATen.narrow t dim start len ≠ Undefined.
Proof.
  unfold ATen.narrow.
  destruct (ndimension t <=? 0); [done|].
  destruct (ATen.maybe_wrap_dim dim _) as [d|e|] eqn:Hd; cbn [Outcome_bind];
    [|done|by apply maybe_wrap_dim_defined in Hd].
  destruct (tensor_dims t !! Z.to_nat d) as [cur|]; [|done].
  destruct (if start =? dim_size cur then _ else _) as [s|e|] eqn:Hs;
    cbn [Outcome_bind]; [by destruct (_ && _)|done|].
  destruct (start =? dim_size cur); [done|].
  by apply maybe_wrap_dim_defined in Hs.
Qed.

(** ** The crop invocation on a tensor argument *)

(** Unfolds an invocation with exactly one argument up to the parsing of
    that argument. *)
Ltac one_argument :=
  unfold centerCropFunc, JSI_bind, JSI_lift, parseTensor;
  cbn [length negb lookup list_lookup from_option];
  change (Z.of_nat 1 =? 1) with true; cbn [negb].

Section AnyPrimitive.

Variable narrow : Tensor → Z → Z → Z → Outcome Tensor.

Lemma centerCropFunc_arity (width height : Z) (args : list Value)
    (rt : Runtime) :
  length args ≠ 1%nat →
  centerCropFunc narrow width height args rt =
  Thrown (JSError "Tensor required as argument").
Proof.
  intros Hlen. unfold centerCropFunc.
  destruct (Z.eqb_spec (Z.of_nat (length args)) 1); [lia|done].
Qed.

Lemma centerCropFunc_not_tensor (width height : Z) (v : Value)
    (rt : Runtime) :
  tensor_of rt v = None →
  centerCropFunc narrow width height [v] rt = Thrown ArgumentTypeError.
Proof.
  intros Hv. one_argument.
  destruct v as [| | | | |ref]; try done.
  unfold tensor_of in Hv.
  by destruct (rt !! ref) as [[| |]|].
Qed.

Lemma centerCropFunc_on_tensor (width height : Z) (rt : Runtime)
    (ref : nat) (o : TensorHostObject) :
  rt !! ref = Some (HostObject o) →
  centerCropFunc narrow width height [VObject ref] rt =
  match getImageSize (tensor o) with
  | None => Undefined
  | Some size =>
      let crop := resolveCropSize width height size in
      handed_back rt
        (Outcome_bind (cropOffsets size crop)
           (λ offsets,
              narrowLastTwo narrow (tensor o)
                offsets.1 offsets.2 crop.1 crop.2))
  end.
Proof.
  intros Href. one_argument. rewrite Href.
  destruct (getImageSize (tensor o)) as [size|]; [|done].
  cbn -[cropOffsets narrowLastTwo].
  destruct (resolveCropSize width height size) as [cropHeight cropWidth].
  destruct (cropOffsets size (cropHeight, cropWidth)) as [[top left]|e|];
    cbn -[narrowLastTwo]; [|done..].
  by destruct (narrowLastTwo _ _ _ _ _ _).
Qed.

End AnyPrimitive.

(** With the library's primitive, a crop that lies inside the image is the
    view that starts [top] rows down and [left] columns in. *)
Lemma narrowLastTwo_inside (t : Tensor) (dpre : list Dim) (dH dW : Dim)
    (top left ch cw : Z) :
  tensor_dims t = dpre ++ [dH; dW] →
  0 ≤ top → 0 ≤ ch → top + ch ≤ dim_size dH →
  0 ≤ left → 0 ≤ cw → left + cw ≤ dim_size dW →
  narrowLastTwo ATen.narrow t top left ch cw =
  Returned
    {| storage_offset :=
         storage_offset t + top * dim_stride dH + left * dim_stride dW;
       tensor_dims :=
         dpre ++ [mkDim ch (dim_stride dH); mkDim cw (dim_stride dW)] |}.
Proof.
  intros Hd Ht Hch Hfh Hl Hcw Hfw. unfold narrowLastTwo, ndimension.
  rewrite Hd, length_app. cbn [length].
  replace (Z.of_nat (length dpre + 2) - 2) with (Z.of_nat (length dpre))
    by lia.
  rewrite (ATen_narrow_inside t dpre dH [dW]) by done.
  cbn [Outcome_bind].
  replace (Z.of_nat (length dpre + 2) - 1)
    with (Z.of_nat (length (dpre ++ [mkDim ch (dim_stride dH)])))
    by (rewrite length_app; cbn; lia).
  rewrite (ATen_narrow_inside _ (dpre ++ [mkDim ch (dim_stride dH)]) dW [])
    by (cbn; rewrite <-?app_assoc; done).
  unfold narrowed_view. cbn. by rewrite <-app_assoc.
Qed.

(** A crop height outside [0, H] is rejected by the library's primitive. *)
Lemma narrowLastTwo_height_outside (t : Tensor) (dpre : list Dim) (dH dW : Dim)
    (top left ch cw : Z) :
  tensor_dims t = dpre ++ [dH; dW] →
  0 ≤ dim_size dH → ch < 0 ∨ dim_size dH < ch →
  ∃ e, narrowLastTwo ATen.narrow t top left ch cw = Thrown e.
Proof.
  intros Hd Hsz Hout. unfold narrowLastTwo, ndimension.
  rewrite Hd, length_app. cbn [length].
  replace (Z.of_nat (length dpre + 2) - 2) with (Z.of_nat (length dpre))
    by lia.
  destruct (ATen_narrow_outside t dpre dH [dW] top ch) as [e ->]; try done.
  by exists e.
Qed.

(** So is a crop width outside [0, W]. *)
Lemma narrowLastTwo_width_outside (t : Tensor) (dpre : list Dim) (dH dW : Dim)
    (top left ch cw : Z) :
  tensor_dims t = dpre ++ [dH; dW] →
  0 ≤ dim_size dW → cw < 0 ∨ dim_size dW < cw →
  ∃ e, narrowLastTwo ATen.narrow t top left ch cw = Thrown e.
Proof.
  intros Hd Hsz Hout. unfold narrowLastTwo, ndimension.
  rewrite Hd, length_app. cbn [length].
  replace (Z.of_nat (length dpre + 2) - 2) with (Z.of_nat (length dpre))
    by lia.
  rewrite (ATen_narrow_at t dpre dH [dW]) by done.
  destruct (if top =? dim_size dH then _ else _) as [s|e|] eqn:Hw;
    cbn [Outcome_bind].
  - destruct ((0 <=? ch) && (s <=? dim_size dH - ch)); [|by eexists].
    replace (Z.of_nat (length dpre + 2) - 1)
      with (Z.of_nat (length (dpre ++ [mkDim ch (dim_stride dH)])))
      by (rewrite length_app; cbn; lia).
    apply (ATen_narrow_outside _ _ dW []); try done.
    unfold narrowed_view. cbn. by rewrite <-app_assoc.
  - by eexists.
  - destruct (top =? dim_size dH); [done|].
    by apply maybe_wrap_dim_defined in Hw.
Qed.

Lemma narrowLastTwo_returned (t : Tensor) (dpre : list Dim) (dH dW : Dim)
    (top left ch cw : Z) (t' : Tensor) :
  tensor_dims t = dpre ++ [dH; dW] →
  narrowLastTwo ATen.narrow t top left ch cw = Returned t' →
  tensor_dims t' = dpre ++ [mkDim ch (dim_stride dH); mkDim cw (dim_stride dW)].
Proof.
  intros Hd. unfold narrowLastTwo, ndimension.
  rewrite Hd, length_app. cbn [length].
  replace (Z.of_nat (length dpre + 2) - 2) with (Z.of_nat (length dpre))
    by lia.
  destruct (ATen.narrow t _ top ch) as [t1|e|] eqn:H1;
    cbn [Outcome_bind]; [|done..].
  apply (ATen_narrow_returned t dpre dH [dW]) in H1; [|done].
  replace (Z.of_nat (length dpre + 2) - 1)
    with (Z.of_nat (length (dpre ++ [mkDim ch (dim_stride dH)])))
    by (rewrite length_app; cbn; lia).
  intros H2.
  apply (ATen_narrow_returned t1 (dpre ++ [mkDim ch (dim_stride dH)]) dW [])
    in H2; [|by rewrite H1, <-app_assoc].
  by rewrite H2, <-app_assoc.
Qed.

Lemma narrowLastTwo_thrown (t : Tensor) (top left ch cw : Z) (e : Exception) :
  narrowLastTwo ATen.narrow t top left ch cw = Thrown e → from_library e.
Proof.
  unfold narrowLastTwo.
  destruct (ATen.narrow t _ top ch) as [t1|e1|] eqn:H1; cbn [Outcome_bind].
  - apply ATen_narrow_thrown.
  - intros [= <-]. by eapply ATen_narrow_thrown.
  - done.
Qed.

Lemma narrowLastTwo_defined (t : Tensor) (top left ch cw : Z) :
  narrowLastTwo ATen.narrow t top left ch cw ≠ Undefined.
Proof.
  unfold narrowLastTwo.
  destruct (ATen.narrow t _ top ch) as [t1|e|] eqn:H1; cbn [Outcome_bind].
  - apply ATen_narrow_defined.
  - done.
  - by apply ATen_narrow_defined in H1.
Qed.

(** The offsets of a crop no larger than the image lie inside the image. *)
Lemma centered_offset_inside (n c : Z) :
  0 ≤ c ≤ n → 0 ≤ (n - c) ÷ 2 ∧ (n - c) ÷ 2 + c ≤ n.
Proof.
  intros Hc. rewrite quot2_nonneg by lia.
  pose proof (Z.div_pos (n - c) 2). pose proof (Z.div_le_upper_bound (n - c) 2 (n - c)).
  lia.
Qed.

Lemma cropOffsets_exact (H W ch cw : Z) :
  CInt.in_range (H - ch) → CInt.in_range (W - cw) →
  cropOffsets (W, H) (ch, cw) = Returned ((H - ch) ÷ 2, (W - cw) ÷ 2).
Proof.
  intros Hh Hw. unfold cropOffsets. cbn [fst snd].
  rewrite !sub_in_range by done. cbn [Outcome_bind].
  by rewrite !div2_in_range by done.
Qed.

Lemma cropOffsets_not_thrown (size crop : Z * Z) (e : Exception) :
  cropOffsets size crop ≠ Thrown e.
Proof.
  unfold cropOffsets, CInt.sub, CInt.div. destruct crop as [ch cw].
  repeat (destruct (CInt.in_rangeb _) || destruct (_ || _)
          || cbn [Outcome_bind]); done.
Qed.

Lemma cropOffsets_overflow (H W ch cw : Z) :
  ¬ CInt.in_range (H - ch) ∨ ¬ CInt.in_range (W - cw) →
  cropOffsets (W, H) (ch, cw) = Undefined.
Proof.
  intros Hover. unfold cropOffsets. cbn [fst snd].
  destruct (decide (CInt.in_range (H - ch))) as [Hh|Hh].
  - rewrite (sub_in_range H ch) by done. cbn [Outcome_bind].
    rewrite div2_in_range by done. cbn [Outcome_bind].
    destruct Hover as [?|Hw]; [done|].
    by rewrite (sub_overflow W cw).
  - by rewrite (sub_overflow H ch).
Qed.

Lemma in_range_nonneg (z : Z) : 0 ≤ z ≤ CInt.INT_MAX → CInt.in_range z.
Proof. unfold CInt.in_range, CInt.INT_MIN, CInt.INT_MAX. lia. Qed.

Lemma in_range_difference (n c : Z) :
  0 ≤ n ≤ CInt.INT_MAX → 0 ≤ c ≤ n → CInt.in_range (n - c).
Proof. unfold CInt.in_range, CInt.INT_MIN, CInt.INT_MAX. lia. Qed.

(** The crop invocation on an image that the resolved crop fits into. *)
Lemma centerCrop_inside (width height : Z) (rt : Runtime) (ref : nat)
    (o : TensorHostObject) (dpre : list Dim) (H W sH sW ch cw : Z) :
  rt !! ref = Some (HostObject o) →
  tensor_dims (tensor o) = dpre ++ [mkDim H sH; mkDim W sW] →
  0 ≤ H ≤ CInt.INT_MAX → 0 ≤ W ≤ CInt.INT_MAX →
  resolveCropSize width height (W, H) = (ch, cw) →
  0 ≤ ch ≤ H → 0 ≤ cw ≤ W →
  centerCropFunc ATen.narrow width height [VObject ref] rt =
  Returned
    (VObject (length rt),
     rt ++ [HostObject (mkTensorHostObject
       {| storage_offset :=
            storage_offset (tensor o)
            + (H - ch) ÷ 2 * sH + (W - cw) ÷ 2 * sW;
          tensor_dims := dpre ++ [mkDim ch sH; mkDim cw sW] |})]).
Proof.
  intros Href Hd HH HW Hcrop Hch Hcw.
  rewrite (centerCropFunc_on_tensor _ _ _ _ _ o) by done.
  rewrite (getImageSize_last_two _ (dim_size <$> dpre) H W)
    by (unfold sizes; rewrite Hd, fmap_app; done).
  rewrite !of_Z_in_range by (by apply in_range_nonneg).
  rewrite Hcrop. cbn zeta. cbn [fst snd].
  rewrite cropOffsets_exact by (by apply in_range_difference).
  cbn [Outcome_bind fst snd].
  destruct (centered_offset_inside H ch Hch).
  destruct (centered_offset_inside W cw Hcw).
  by rewrite (narrowLastTwo_inside _ dpre (mkDim H sH) (mkDim W sW))
    by (done || lia).
Qed.

Lemma shape_of_new (rt : Runtime) (t : Tensor) :
  shape_of (rt ++ [HostObject (mkTensorHostObject t)]) (VObject (length rt))
  = Some (sizes t).
Proof.
  unfold shape_of, tensor_of.
  by rewrite lookup_app_r, Nat.sub_diag by lia.
Qed.

(** The same, read on shapes. *)
Lemma centerCrop_inside_shape (width height : Z) (rt : Runtime) (ref : nat)
    (o : TensorHostObject) (pre : list Z) (H W ch cw : Z) :
  rt !! ref = Some (HostObject o) →
  sizes (tensor o) = pre ++ [H; W] →
  0 ≤ H ≤ CInt.INT_MAX → 0 ≤ W ≤ CInt.INT_MAX →
  resolveCropSize width height (W, H) = (ch, cw) →
  0 ≤ ch ≤ H → 0 ≤ cw ≤ W →
  ∃ v rt',
    centerCropFunc ATen.narrow width height [VObject ref] rt
    = Returned (v, rt')
    ∧ shape_of rt' v = Some (pre ++ [ch; cw]).
Proof.
  intros Href Hs HH HW Hcrop Hch Hcw.
  destruct (sizes_last_two_inv _ _ _ _ Hs) as (dpre & sH & sW & Hd & Hpre).
  eexists _, _. split.
  - by eapply centerCrop_inside.
  - rewrite shape_of_new. unfold sizes. cbn.
    by rewrite fmap_app, Hpre.
Qed.

(** ** The factory *)

Lemma factory_no_arguments (rt : Runtime) :
  centerCropFactoryFunc [] rt =
  Returned
    (VObject (length rt),
     rt ++ [HostFunction "CenterCrop(-1, -1)" 1
              (centerCropFunc_closure (-1) (-1))]).
Proof. reflexivity. Qed.

Lemma factory_width_only (d : spec_float) (width : Z) (rt : Runtime) :
  double_to_int d = Returned width →
  centerCropFactoryFunc [VNumber d] rt =
  createFromHostFunction
    (String.append "CenterCrop("
       (String.append (to_string width) ", -1)"))
    1 (centerCropFunc_closure width (-1)) rt.
Proof.
  intros Hd. unfold centerCropFactoryFunc, JSI_bind, JSI_lift, int_argument.
  cbn [length lookup list_lookup from_option Outcome_bind asNumber].
  change (0 <? Z.of_nat 1) with true. change (1 <? Z.of_nat 1) with false.
  cbn iota. by rewrite Hd.
Qed.

Lemma factory_width_height (dw dh : spec_float) (width height : Z)
    (rt : Runtime) :
  double_to_int dw = Returned width →
  double_to_int dh = Returned height →
  centerCropFactoryFunc [VNumber dw; VNumber dh] rt =
  createFromHostFunction
    (String.append "CenterCrop("
       (String.append (to_string width)
          (String.append ", " (String.append (to_string height) ")"))))
    1 (centerCropFunc_closure width height) rt.
Proof.
  intros Hw Hh. unfold centerCropFactoryFunc, JSI_bind, JSI_lift, int_argument.
  cbn [length lookup list_lookup from_option Outcome_bind asNumber].
  change (0 <? Z.of_nat 2) with true. change (1 <? Z.of_nat 2) with true.
  cbn iota. by rewrite Hw, Hh.
Qed.

(** A call of a function that the runtime holds runs its lambda. *)
Lemma call_function (narrow : Tensor → Z → Z → Z → Outcome Tensor)
    (rt : Runtime) (ref : nat) (name : string) (paramCount : Z)
    (func : HostFunctionType) (args : list Value) :
  rt !! ref = Some (HostFunction name paramCount func) →
  call narrow (VObject ref) args rt = callHostFunction narrow func args rt.
Proof. intros Href. unfold call. by rewrite Href. Qed.

(** ** Crop geometry *)

(** C1, as stated, fails.  The image size is kept in [int]: of a tensor of
    shape 5 x (2^32 + 2) the width is read as 2, so that a crop of width 2 and
    height 4 gets the left offset 0 where (imageWidth - cropWidth) / 2 is
    2^31, and the columns returned are the first two.  On a 4 x 4 image with
    the crop height -2^31 the subtraction of line 126 overflows [int] and no
    offset is defined. *)
Lemma crop_offsets_counterexample :
  (getImageSize (contiguous [5; 2 ^ 32 + 2]) = Some (2, 5)
   ∧ cropOffsets (2, 5) (resolveCropSize 2 4 (2, 5)) = Returned (0, 0)
   ∧ (2 ^ 32 + 2 - 2) ÷ 2 ≠ 0
   ∧ centerCrop_applied [number 2; number 4] (contiguous [5; 2 ^ 32 + 2])
     = Returned (Some [4; 2]))
  ∧ (getImageSize (contiguous [3; 4; 4]) = Some (4, 4)
     ∧ resolveCropSize 4 (- 2 ^ 31) (4, 4) = (- 2 ^ 31, 4)
     ∧ cropOffsets (4, 4) (- 2 ^ 31, 4) = Undefined).
Proof. repeat split; (vm_compute; congruence). Qed.

(** C1, amended.  For a tensor whose last two dimensions are (imageHeight,
    imageWidth), both representable as [int], and a resolved crop size
    (cropHeight, cropWidth) whose differences to the image size are
    representable as [int], the crop invocation reads the image size as
    (imageWidth, imageHeight), computes the top offset
    (imageHeight - cropHeight) / 2 and the left offset
    (imageWidth - cropWidth) / 2 with the truncating division of C, which is
    the floor when the crop is no larger than the image, and hands exactly
    these offsets to the slicing primitive. *)
Theorem crop_offsets_centered
    (t : Tensor) (pre : list Z) (imageHeight imageWidth width height : Z) :
  sizes t = pre ++ [imageHeight; imageWidth] →
  CInt.in_range imageHeight → CInt.in_range imageWidth →
  let crop := resolveCropSize width height (imageWidth, imageHeight) in
  let cropHeight := crop.1 in
  let cropWidth := crop.2 in
  CInt.in_range (imageHeight - cropHeight) →
  CInt.in_range (imageWidth - cropWidth) →
  getImageSize t = Some (imageWidth, imageHeight)
  ∧ cropOffsets (imageWidth, imageHeight) crop
    = Returned
        ((imageHeight - cropHeight) ÷ 2, (imageWidth - cropWidth) ÷ 2)
  ∧ (cropHeight ≤ imageHeight →
     (imageHeight - cropHeight) ÷ 2 = (imageHeight - cropHeight) `div` 2)
  ∧ (cropWidth ≤ imageWidth →
     (imageWidth - cropWidth) ÷ 2 = (imageWidth - cropWidth) `div` 2)
  ∧ ∀ (narrow : Tensor → Z → Z → Z → Outcome Tensor) (rt : Runtime)
      (ref : nat),
      rt !! ref = Some (HostObject (mkTensorHostObject t)) →
      centerCropFunc narrow width height [VObject ref] rt
      = handed_back rt
          (narrowLastTwo narrow t
             ((imageHeight - cropHeight) ÷ 2) ((imageWidth - cropWidth) ÷ 2)
             cropHeight cropWidth).
Proof.
  intros Hs HH HW crop cropHeight cropWidth Hdh Hdw.
  assert (getImageSize t = Some (imageWidth, imageHeight)) as Hsize.
  { rewrite (getImageSize_last_two t pre imageHeight imageWidth) by done.
    by rewrite !of_Z_in_range. }
  assert (cropOffsets (imageWidth, imageHeight) crop
          = Returned
              ((imageHeight - cropHeight) ÷ 2, (imageWidth - cropWidth) ÷ 2))
    as Hoff.
  { subst cropHeight cropWidth. destruct crop as [ch cw].
    by apply cropOffsets_exact. }
  repeat split; try done.
  - intros Hle. apply quot2_nonneg. lia.
  - intros Hle. apply quot2_nonneg. lia.
  - intros narrow rt ref Href.
    rewrite (centerCropFunc_on_tensor _ _ _ _ _ _ Href). cbn [tensor].
    rewrite Hsize. cbn zeta. fold crop. by rewrite Hoff.
Qed.

(** An image of height 9 cropped to height 4 gets the top offset 2; its width
    12 cropped to 6 gets the left offset 3. *)
Lemma crop_offsets_centered_witness :
  cropOffsets (12, 9) (resolveCropSize 6 4 (12, 9)) = Returned (2, 3)
  ∧ (9 - 4) ÷ 2 = 2.
Proof.
  assert (∀ z, -100 ≤ z ≤ 100 → CInt.in_range z) as Hsmall.
  { unfold CInt.in_range, CInt.INT_MIN, CInt.INT_MAX. lia. }
  destruct (crop_offsets_centered (contiguous [3; 9; 12]) [3] 9 12 6 4)
    as (_ & Hoff & _); [reflexivity|apply Hsmall; cbn; lia..|].
  split; [exact Hoff|reflexivity].
Defined.

(** ** Result shapes *)

Lemma resolve_unset_width (height H W : Z) :
  resolveCropSize (-1) height (W, H) = (Z.min H W, Z.min H W).
Proof.
  unfold resolveCropSize. cbn [fst snd Z.eqb].
  rewrite min_spec. by rewrite Z.min_comm.
Qed.

(** C2, as stated, fails.  The image size is kept in [int]: of a tensor of
    shape 5 x (2^32 + 2) the width is read as 2, and [centerCrop()] returns a
    2 x 2 tensor where min(H,W) is 5. *)
Lemma default_crop_counterexample :
  getImageSize (contiguous [5; 2 ^ 32 + 2]) = Some (2, 5)
  ∧ centerCrop_applied [] (contiguous [5; 2 ^ 32 + 2])
    = Returned (Some [2; 2])
  ∧ centerCrop_applied [] (contiguous [5; 2 ^ 32 + 2])
    ≠ Returned (Some [5; 5]).
Proof. repeat split; (vm_compute; congruence). Qed.

(** C2, amended.  For every tensor of shape [..., H, W] whose last two sizes
    are representable as [int], the callable that the factory produces from no
    arguments returns a tensor of shape [..., min(H,W), min(H,W)]; whenever
    the captured width is unset, crop height and crop width both resolve to
    min(H,W) whatever the captured height is, and the result has that shape. *)
Theorem default_crop_is_min_square
    (rt : Runtime) (f : nat) (name : string) (paramCount : Z) (ref : nat)
    (o : TensorHostObject) (pre : list Z) (H W : Z) :
  rt !! f = Some (HostFunction name paramCount centerCropFactoryFunc_closure) →
  rt !! ref = Some (HostObject o) →
  sizes (tensor o) = pre ++ [H; W] →
  0 ≤ H ≤ CInt.INT_MAX → 0 ≤ W ≤ CInt.INT_MAX →
  (∃ g rt1 v rt2,
      call ATen.narrow (VObject f) [] rt = Returned (g, rt1)
      ∧ call ATen.narrow g [VObject ref] rt1 = Returned (v, rt2)
      ∧ shape_of rt2 v = Some (pre ++ [Z.min H W; Z.min H W]))
  ∧ ∀ height : Z,
      resolveCropSize (-1) height (W, H) = (Z.min H W, Z.min H W)
      ∧ ∃ v rt',
          centerCropFunc ATen.narrow (-1) height [VObject ref] rt
          = Returned (v, rt')
          ∧ shape_of rt' v = Some (pre ++ [Z.min H W; Z.min H W]).
Proof.
  intros Hf Href Hs HH HW.
  assert (∀ (height : Z) (rt0 : Runtime),
            rt0 !! ref = Some (HostObject o) →
            ∃ v rt',
              centerCropFunc ATen.narrow (-1) height [VObject ref] rt0
              = Returned (v, rt')
              ∧ shape_of rt' v = Some (pre ++ [Z.min H W; Z.min H W]))
    as Hcrop.
  { intros height rt0 Href0.
    eapply centerCrop_inside_shape; eauto using resolve_unset_width; lia. }
  split.
  - destruct (Hcrop (-1)
                (rt ++ [HostFunction "CenterCrop(-1, -1)" 1
                          (centerCropFunc_closure (-1) (-1))]))
      as (v & rt2 & Hrun & Hshape).
    { by apply lookup_app_l_Some. }
    eexists _, _, v, rt2. split; [|split; [|exact Hshape]].
    + rewrite (call_function _ _ _ _ _ _ _ Hf). cbn [callHostFunction].
      apply factory_no_arguments.
    + rewrite (call_function _ _ _ "CenterCrop(-1, -1)" 1
                 (centerCropFunc_closure (-1) (-1))); [exact Hrun|].
      by rewrite lookup_app_r, Nat.sub_diag by lia.
  - intros height. split; [apply resolve_unset_width|apply Hcrop, Href].
Qed.

(** A 3 x 9 x 12 image: [centerCrop()(tensor)] has shape 3 x 9 x 9. *)
Lemma default_crop_is_min_square_witness :
  ∃ g rt1 v rt2,
    call ATen.narrow (VObject 0) []
      [HostFunction CENTER_CROP 1 centerCropFactoryFunc_closure;
       HostObject (mkTensorHostObject (contiguous [3; 9; 12]))]
    = Returned (g, rt1)
    ∧ call ATen.narrow g [VObject 1%nat] rt1 = Returned (v, rt2)
    ∧ shape_of rt2 v = Some [3; 9; 9].
Proof.
  apply (default_crop_is_min_square
           [HostFunction CENTER_CROP 1 centerCropFactoryFunc_closure;
            HostObject (mkTensorHostObject (contiguous [3; 9; 12]))]
           0 CENTER_CROP 1 1 (mkTensorHostObject (contiguous [3; 9; 12]))
           [3] 9 12);
    try reflexivity; unfold CInt.INT_MAX; lia.
Defined.

(** A crop that does not fit, with offsets that are defined, is rejected: the
    invocation throws what the library throws. *)
Lemma centerCrop_outside (width height : Z) (rt : Runtime) (ref : nat)
    (o : TensorHostObject) (pre : list Z) (H W ch cw : Z) (offsets : Z * Z) :
  rt !! ref = Some (HostObject o) →
  sizes (tensor o) = pre ++ [H; W] →
  0 ≤ H → 0 ≤ W →
  resolveCropSize width height (CInt.of_Z W, CInt.of_Z H) = (ch, cw) →
  cropOffsets (CInt.of_Z W, CInt.of_Z H) (ch, cw) = Returned offsets →
  ¬ (0 ≤ ch ≤ H ∧ 0 ≤ cw ≤ W) →
  ∃ e, centerCropFunc ATen.narrow width height [VObject ref] rt = Thrown e.
Proof.
  intros Href Hs HH HW Hcrop Hoff Hout.
  destruct (sizes_last_two_inv _ _ _ _ Hs) as (dpre & sH & sW & Hd & _).
  rewrite (centerCropFunc_on_tensor _ _ _ _ _ o) by done.
  rewrite (getImageSize_last_two _ pre H W) by done.
  rewrite Hcrop. cbn zeta. rewrite Hoff. cbn [Outcome_bind fst snd].
  destruct offsets as [top left]. cbn [fst snd].
  destruct (Z_lt_le_dec ch 0) as [?|?]; [|destruct (Z_lt_le_dec H ch)].
  1,2: destruct (narrowLastTwo_height_outside (tensor o) dpre (mkDim H sH)
                   (mkDim W sW) top left ch cw) as [e ->];
         [done|done|cbn; lia|by exists e].
  destruct (narrowLastTwo_width_outside (tensor o) dpre (mkDim H sH)
              (mkDim W sW) top left ch cw) as [e ->];
    [done|done|cbn; lia|by exists e].
Qed.

(** Offsets that are not defined leave the invocation undefined. *)
Lemma centerCrop_overflow (width height : Z) (rt : Runtime) (ref : nat)
    (o : TensorHostObject) (pre : list Z) (H W : Z) :
  rt !! ref = Some (HostObject o) →
  sizes (tensor o) = pre ++ [H; W] →
  cropOffsets (CInt.of_Z W, CInt.of_Z H)
    (resolveCropSize width height (CInt.of_Z W, CInt.of_Z H)) = Undefined →
  centerCropFunc ATen.narrow width height [VObject ref] rt = Undefined.
Proof.
  intros Href Hs Hoff.
  rewrite (centerCropFunc_on_tensor _ _ _ _ _ o) by done.
  rewrite (getImageSize_last_two _ pre H W) by done.
  cbn zeta. by rewrite Hoff.
Qed.

Lemma resolve_explicit (width height : Z) (size : Z * Z) :
  width ≠ -1 → height ≠ -1 →
  resolveCropSize width height size = (height, width).
Proof.
  intros Hw Hh. unfold resolveCropSize.
  destruct (Z.eqb_spec width (-1)); [done|].
  by destruct (Z.eqb_spec height (-1)).
Qed.

Lemma resolve_unset_height (width : Z) (size : Z * Z) :
  width ≠ -1 → resolveCropSize width (-1) size = (width, width).
Proof.
  intros Hw. unfold resolveCropSize.
  by destruct (Z.eqb_spec width (-1)).
Qed.

(** C3, as stated, fails.  A 10 x 10 crop of a 3 x 4 x 4 tensor returns no
    tensor at all: the slicing primitive throws.  With the explicit width -1
    and height 5, a 3 x 10 x 8 tensor is cropped to 3 x 8 x 8.  Of a tensor
    of shape (2^32 + 2) x 5 the height is read as 2, and the crop of width 2
    and height 4 returns no tensor either. *)
Lemma explicit_size_counterexample :
  (centerCrop_applied [number 10; number 10] (contiguous [3; 4; 4])
   = Thrown c10_Error
   ∧ centerCrop_applied [number 10; number 10] (contiguous [3; 4; 4])
     ≠ Returned (Some [3; 10; 10]))
  ∧ (centerCrop_applied [number (-1); number 5] (contiguous [3; 10; 8])
     = Returned (Some [3; 8; 8])
     ∧ centerCrop_applied [number (-1); number 5] (contiguous [3; 10; 8])
       ≠ Returned (Some [3; 5; -1]))
  ∧ (centerCrop_applied [number 2; number 4] (contiguous [2 ^ 32 + 2; 5])
     = Thrown c10_Error
     ∧ centerCrop_applied [number 2; number 4] (contiguous [2 ^ 32 + 2; 5])
       ≠ Returned (Some [4; 2])).
Proof. repeat split; (vm_compute; congruence). Qed.

(** C3, amended.  For every tensor of shape [..., H, W] whose last two sizes
    are representable as [int] and every explicit width and height other than
    -1 with 0 <= height <= H and 0 <= width <= W, the factory captures both
    and the crop invocation returns a tensor of shape [..., height, width]. *)
Theorem explicit_crop_shape
    (rt : Runtime) (ref : nat) (o : TensorHostObject) (pre : list Z)
    (H W : Z) (dw dh : spec_float) (width height : Z) :
  rt !! ref = Some (HostObject o) →
  sizes (tensor o) = pre ++ [H; W] →
  0 ≤ H ≤ CInt.INT_MAX → 0 ≤ W ≤ CInt.INT_MAX →
  double_to_int dw = Returned width → double_to_int dh = Returned height →
  width ≠ -1 → height ≠ -1 →
  0 ≤ height ≤ H → 0 ≤ width ≤ W →
  (∀ rt0, centerCropFactoryFunc [VNumber dw; VNumber dh] rt0
          = Returned
              (VObject (length rt0),
               rt0 ++ [HostFunction (centerCrop_name width height) 1
                         (centerCropFunc_closure width height)]))
  ∧ ∃ v rt',
      centerCropFunc ATen.narrow width height [VObject ref] rt
      = Returned (v, rt')
      ∧ shape_of rt' v = Some (pre ++ [height; width]).
Proof.
  intros Href Hs HH HW Hdw Hdh Hw Hh Hfh Hfw. split.
  - intros rt0. by rewrite (factory_width_height dw dh width height).
  - eapply centerCrop_inside_shape; eauto using resolve_explicit.
Qed.

(** A 3 x 9 x 12 tensor cropped with width 6 and height 4 has shape
    3 x 4 x 6. *)
Lemma explicit_crop_shape_witness :
  ∃ v rt',
    centerCropFunc ATen.narrow 6 4 [VObject 0]
      [HostObject (mkTensorHostObject (contiguous [3; 9; 12]))]
    = Returned (v, rt')
    ∧ shape_of rt' v = Some [3; 4; 6].
Proof.
  destruct (explicit_crop_shape
              [HostObject (mkTensorHostObject (contiguous [3; 9; 12]))]
              0 (mkTensorHostObject (contiguous [3; 9; 12])) [3] 9 12
              (double 6) (double 4) 6 4)
    as [_ Hin]; try reflexivity; try (unfold CInt.INT_MAX; lia).
  exact Hin.
Defined.

(** C4, as stated, fails.  A crop of width 10 of a 3 x 4 x 4 tensor returns
    no tensor: the slicing primitive throws.  With the single argument -1, a
    3 x 10 x 8 tensor is cropped to 3 x 8 x 8.  Of a tensor of shape
    (2^32 + 2) x 5 the height is read as 2, and the crop of width 4 returns
    no tensor either. *)
Lemma width_only_counterexample :
  (centerCrop_applied [number 10] (contiguous [3; 4; 4]) = Thrown c10_Error
   ∧ centerCrop_applied [number 10] (contiguous [3; 4; 4])
     ≠ Returned (Some [3; 10; 10]))
  ∧ (centerCrop_applied [number (-1)] (contiguous [3; 10; 8])
     = Returned (Some [3; 8; 8])
     ∧ centerCrop_applied [number (-1)] (contiguous [3; 10; 8])
       ≠ Returned (Some [3; -1; -1]))
  ∧ (centerCrop_applied [number 4] (contiguous [2 ^ 32 + 2; 5])
     = Thrown c10_Error
     ∧ centerCrop_applied [number 4] (contiguous [2 ^ 32 + 2; 5])
       ≠ Returned (Some [4; 4])).
Proof. repeat split; (vm_compute; congruence). Qed.

(** C4, amended.  For every tensor of shape [..., H, W] whose last two sizes
    are representable as [int] and every factory call with exactly one
    numeric argument, a width other than -1 with 0 <= width <= min(H,W), the
    unset height defaults to the width and the crop invocation returns a
    tensor of shape [..., width, width]. *)
Theorem width_only_crop_shape
    (rt : Runtime) (ref : nat) (o : TensorHostObject) (pre : list Z)
    (H W : Z) (dw : spec_float) (width : Z) :
  rt !! ref = Some (HostObject o) →
  sizes (tensor o) = pre ++ [H; W] →
  0 ≤ H ≤ CInt.INT_MAX → 0 ≤ W ≤ CInt.INT_MAX →
  double_to_int dw = Returned width →
  width ≠ -1 →
  0 ≤ width ≤ Z.min H W →
  (∀ rt0, centerCropFactoryFunc [VNumber dw] rt0
          = Returned
              (VObject (length rt0),
               rt0 ++ [HostFunction (centerCrop_name width (-1)) 1
                         (centerCropFunc_closure width (-1))]))
  ∧ (∀ size, resolveCropSize width (-1) size = (width, width))
  ∧ ∃ v rt',
      centerCropFunc ATen.narrow width (-1) [VObject ref] rt
      = Returned (v, rt')
      ∧ shape_of rt' v = Some (pre ++ [width; width]).
Proof.
  intros Href Hs HH HW Hdw Hw Hfit. split; [|split].
  - intros rt0. by rewrite (factory_width_only dw width).
  - intros size. by apply resolve_unset_height.
  - eapply centerCrop_inside_shape; eauto using resolve_unset_height; lia.
Qed.

(** A 3 x 9 x 12 tensor cropped with the single argument 6 has shape
    3 x 6 x 6. *)
Lemma width_only_crop_shape_witness :
  ∃ v rt',
    centerCropFunc ATen.narrow 6 (-1) [VObject 0]
      [HostObject (mkTensorHostObject (contiguous [3; 9; 12]))]
    = Returned (v, rt')
    ∧ shape_of rt' v = Some [3; 6; 6].
Proof.
  destruct (width_only_crop_shape
              [HostObject (mkTensorHostObject (contiguous [3; 9; 12]))]
              0 (mkTensorHostObject (contiguous [3; 9; 12])) [3] 9 12
              (double 6) 6)
    as (_ & _ & Hin); try reflexivity; try (unfold CInt.INT_MAX; lia).
  exact Hin.
Defined.

(** ** The dimensions that the crop leaves alone *)

(** C5.  Whenever the crop invocation on a tensor of shape [..., H, W]
    returns, it returns a new object that wraps a tensor with as many
    dimensions as the input, the same leading dimensions and the resolved
    crop size in the last two places, and the object given as argument still
    wraps the input tensor, whose shape is unchanged.  Otherwise it throws
    what the tensor library throws, or a subtraction of lines 126-127 has
    overflowed [int] and nothing is defined.  It does return when the last two
    sizes are representable as [int] and the resolved crop fits into the
    image. *)
Theorem leading_dimensions_preserved
    (width height : Z) (rt : Runtime) (ref : nat) (o : TensorHostObject)
    (pre : list Z) (H W : Z) :
  rt !! ref = Some (HostObject o) →
  sizes (tensor o) = pre ++ [H; W] →
  let crop := resolveCropSize width height (CInt.of_Z W, CInt.of_Z H) in
  match centerCropFunc ATen.narrow width height [VObject ref] rt with
  | Returned (v, rt') =>
      ∃ t',
        tensor_of rt' v = Some t'
        ∧ sizes t' = pre ++ [crop.1; crop.2]
        ∧ length (sizes t') = length (sizes (tensor o))
        ∧ take (length pre) (sizes t') = take (length pre) (sizes (tensor o))
        ∧ (∀ i, (i < length pre)%nat → sizes t' !! i = sizes (tensor o) !! i)
        ∧ v ≠ VObject ref
        ∧ rt' !! ref = Some (HostObject o)
        ∧ tensor_of rt' (VObject ref) = Some (tensor o)
  | Thrown e => from_library e
  | Undefined =>
      ¬ CInt.in_range (CInt.of_Z H - crop.1)
      ∨ ¬ CInt.in_range (CInt.of_Z W - crop.2)
  end
  ∧ (0 ≤ H ≤ CInt.INT_MAX → 0 ≤ W ≤ CInt.INT_MAX →
     0 ≤ crop.1 ≤ H → 0 ≤ crop.2 ≤ W →
     ∃ v rt',
       centerCropFunc ATen.narrow width height [VObject ref] rt
       = Returned (v, rt')).
Proof.
  intros Href Hs crop. split.
  - destruct (sizes_last_two_inv _ _ _ _ Hs) as (dpre & sH & sW & Hd & Hpre).
    rewrite (centerCropFunc_on_tensor _ _ _ _ _ o) by done.
    rewrite (getImageSize_last_two _ pre H W) by done.
    cbn zeta. fold crop.
    destruct crop as [ch cw]. cbn [fst snd].
    destruct (cropOffsets _ (ch, cw)) as [[top left]|e|] eqn:Hoff;
      cbn [Outcome_bind handed_back fst snd].
    2: { by apply cropOffsets_not_thrown in Hoff. }
    2: { destruct (decide (CInt.in_range (CInt.of_Z H - ch))) as [Hh|Hh];
           [|by left].
         destruct (decide (CInt.in_range (CInt.of_Z W - cw))) as [Hw|Hw];
           [|by right].
         by rewrite cropOffsets_exact in Hoff. }
    destruct (narrowLastTwo _ _ _ _ _ _) as [t'|e|] eqn:Hn; cbn [handed_back].
    + apply (narrowLastTwo_returned _ dpre (mkDim H sH) (mkDim W sW)) in Hn;
        [|done].
      assert (sizes t' = pre ++ [ch; cw]) as Hs'.
      { unfold sizes. by rewrite Hn, fmap_app, Hpre. }
      pose proof (lookup_lt_Some _ _ _ Href) as Hlt.
      exists t'. repeat split.
      * unfold tensor_of. by rewrite lookup_app_r, Nat.sub_diag by lia.
      * done.
      * by rewrite Hs', Hs, !length_app.
      * by rewrite Hs', Hs, !take_app_length.
      * intros i Hi. by rewrite Hs', Hs, !lookup_app_l by done.
      * intros [= Heq]. lia.
      * by apply lookup_app_l_Some.
      * unfold tensor_of. by rewrite lookup_app_l, Href by done.
    + by eapply narrowLastTwo_thrown.
    + by apply narrowLastTwo_defined in Hn.
  - intros HH HW Hch Hcw. subst crop.
    rewrite !of_Z_in_range in Hch, Hcw by (by apply in_range_nonneg).
    destruct (resolveCropSize width height (W, H)) as [ch cw] eqn:Hcrop.
    destruct (centerCrop_inside_shape width height rt ref o pre H W ch cw)
      as (v & rt' & Hrun & _); try done.
    by exists v, rt'.
Qed.

(** A 2 x 3 x 9 x 12 tensor cropped to 4 x 6 keeps its leading 2 x 3. *)
Lemma leading_dimensions_preserved_witness :
  ∃ v rt' t',
    centerCropFunc ATen.narrow 6 4 [VObject 0]
      [HostObject (mkTensorHostObject (contiguous [2; 3; 9; 12]))]
    = Returned (v, rt')
    ∧ tensor_of rt' v = Some t'
    ∧ sizes t' = [2; 3; 4; 6]
    ∧ tensor_of rt' (VObject 0) = Some (contiguous [2; 3; 9; 12]).
Proof.
  destruct (leading_dimensions_preserved 6 4
              [HostObject (mkTensorHostObject (contiguous [2; 3; 9; 12]))]
              0 (mkTensorHostObject (contiguous [2; 3; 9; 12])) [2; 3] 9 12
              eq_refl eq_refl)
    as [Hframe Hreturns].
  destruct Hreturns as (v & rt' & Hrun);
    [unfold CInt.INT_MAX; lia..|cbn; lia|cbn; lia|].
  rewrite Hrun in Hframe.
  destruct Hframe as (t' & Ht & Hs & _ & _ & _ & _ & _ & Hin).
  by exists v, rt', t'.
Defined.

(** ** Argument errors *)

(** C6.  Invoking the produced callable with an argument count other than
    one throws the script error "Tensor required as argument"; invoking it
    with a single argument that is not a tensor throws the argument-type
    error; invoking it with exactly one tensor argument throws neither: if it
    throws at all, the exception comes from the tensor library. *)
Theorem invocation_argument_errors
    (width height : Z) (args : list Value) (rt : Runtime) :
  (length args ≠ 1%nat →
   ∀ narrow,
     centerCropFunc narrow width height args rt
     = Thrown (JSError "Tensor required as argument"))
  ∧ (∀ v, args = [v] → tensor_of rt v = None →
     ∀ narrow,
       centerCropFunc narrow width height args rt = Thrown ArgumentTypeError)
  ∧ (∀ v t, args = [v] → tensor_of rt v = Some t →
     ∀ e, centerCropFunc ATen.narrow width height args rt = Thrown e →
          from_library e ∧ e ≠ ArgumentTypeError ∧ ∀ message, e ≠ JSError message).
Proof.
  split; [|split].
  - intros Hlen narrow. by apply centerCropFunc_arity.
  - intros v -> Hv narrow. by apply centerCropFunc_not_tensor.
  - intros v t -> Hv e Hrun.
    assert (from_library e) as Hlib.
    { destruct v as [| | | | |ref]; try done.
      unfold tensor_of in Hv.
      destruct (rt !! ref) as [[|o|]|] eqn:Href; try done.
      rewrite (centerCropFunc_on_tensor _ _ _ _ _ o) in Hrun by done.
      destruct (getImageSize (tensor o)) as [size|]; [|done].
      cbn zeta in Hrun.
      destruct (cropOffsets _ _) as [[top left]|e'|] eqn:Hoff;
        cbn [Outcome_bind handed_back fst snd] in Hrun; [| |done].
      2: { by apply cropOffsets_not_thrown in Hoff. }
      destruct (narrowLastTwo _ _ _ _ _ _) as [t'|e'|] eqn:Hn; try done.
      cbn in Hrun. injection Hrun as ->.
      by eapply narrowLastTwo_thrown. }
    split; [done|]. by destruct Hlib as [-> | ->].
Qed.

(** No argument, a number in place of the tensor, and a tensor. *)
Lemma invocation_argument_errors_witness :
  centerCropFunc ATen.narrow 6 4 []
    [HostObject (mkTensorHostObject (contiguous [3; 9; 12]))]
  = Thrown (JSError "Tensor required as argument")
  ∧ centerCropFunc ATen.narrow 6 4 [number 7]
      [HostObject (mkTensorHostObject (contiguous [3; 9; 12]))]
    = Thrown ArgumentTypeError
  ∧ ∀ e, centerCropFunc ATen.narrow 6 4 [VObject 0]
           [HostObject (mkTensorHostObject (contiguous [3; 9; 12]))]
         = Thrown e →
         from_library e ∧ e ≠ ArgumentTypeError
         ∧ ∀ message, e ≠ JSError message.
Proof.
  split; [|split].
  - apply (invocation_argument_errors 6 4 []
             [HostObject (mkTensorHostObject (contiguous [3; 9; 12]))]).
    cbn. lia.
  - by apply (invocation_argument_errors 6 4 [number 7]
                [HostObject (mkTensorHostObject (contiguous [3; 9; 12]))])
         with (number 7).
  - by apply (invocation_argument_errors 6 4 [VObject 0]
                [HostObject (mkTensorHostObject (contiguous [3; 9; 12]))])
         with (VObject 0) (contiguous [3; 9; 12]).
Defined.

(** ** Crops larger than the image *)

(** C7.  There is an input whose resolved crop height exceeds the image
    height: a 3 x 4 x 4 tensor and the crop 10 x 10.  The computed offsets are
    negative (-3), and whatever the slicing primitive is, the invocation hands
    it the unpadded tensor with these offsets and returns or throws what the
    primitive does: the binding checks no bounds.  The library's primitive
    throws on this call. *)
Theorem oversized_crop_unchecked :
  ∃ (t : Tensor) (width height H W cropHeight cropWidth cropTop cropLeft : Z),
    getImageSize t = Some (W, H)
    ∧ resolveCropSize width height (W, H) = (cropHeight, cropWidth)
    ∧ cropOffsets (W, H) (cropHeight, cropWidth)
      = Returned (cropTop, cropLeft)
    ∧ H < cropHeight ∧ cropTop < 0 ∧ cropLeft < 0
    ∧ (∀ narrow : Tensor → Z → Z → Z → Outcome Tensor,
         centerCropFunc narrow width height [VObject 0]
           [HostObject (mkTensorHostObject t)]
         = handed_back [HostObject (mkTensorHostObject t)]
             (Outcome_bind
                (narrow t (ndimension t - 2) cropTop cropHeight)
                (λ narrowed,
                   narrow narrowed (ndimension t - 1) cropLeft cropWidth)))
    ∧ centerCropFunc ATen.narrow width height [VObject 0]
        [HostObject (mkTensorHostObject t)]
      = Thrown c10_Error.
Proof.
  exists (contiguous [3; 4; 4]), 10, 10, 4, 4, 10, 10, (-3), (-3).
  repeat split; try reflexivity.
  intros narrow.
  by rewrite (centerCropFunc_on_tensor _ _ _ _ _
                (mkTensorHostObject (contiguous [3; 4; 4]))).
Qed.

(** ** The captured crop specification *)

Lemma factory_returns_closure (args : list Value) (rt : Runtime) (f : Value)
    (rt1 : Runtime) :
  centerCropFactoryFunc args rt = Returned (f, rt1) →
  ∃ name width height,
    f = VObject (length rt)
    ∧ rt1 = rt ++ [HostFunction name 1 (centerCropFunc_closure width height)].
Proof.
  unfold centerCropFactoryFunc, JSI_bind, JSI_lift, createFromHostFunction.
  destruct (if 0 <? _ then _ else _) as [width|e|]; [|done..].
  destruct (if 1 <? _ then _ else _) as [height|e|]; [|done..].
  intros [= <- <-]. by eexists _, width, height.
Qed.

(** C8.  The factory, called on a width and a height, creates a callable
    that captures exactly the integers the two numbers convert to (-1 for an
    argument that is not given), under the name of that size.  An invocation
    of this callable runs the crop with the captured width and height; when it
    returns, the tensor is the one the geometry resolved from them yields, the
    callable is still the same object with the same captured values, and a
    second invocation on a tensor equal to the first returns an equal tensor,
    so the same shape, again without changing the callable.  When the
    invocation throws or is undefined, so is the one on the equal tensor. *)
Theorem captured_specification_fixed
    (narrow : Tensor → Z → Z → Z → Outcome Tensor) (rt : Runtime) (f : nat)
    (fname : string) (fparams : Z) (dw dh : spec_float) (width height : Z)
    (x y : nat) (ox oy : TensorHostObject) :
  rt !! f = Some (HostFunction fname fparams centerCropFactoryFunc_closure) →
  double_to_int dw = Returned width →
  double_to_int dh = Returned height →
  rt !! x = Some (HostObject ox) →
  rt !! y = Some (HostObject oy) →
  tensor ox = tensor oy →
  let callable :=
    HostFunction (centerCrop_name width height) 1
      (centerCropFunc_closure width height) in
  let g := length rt in
  let rt1 := rt ++ [callable] in
  call narrow (VObject f) [VNumber dw; VNumber dh] rt
  = Returned (VObject g, rt1)
  ∧ call narrow (VObject f) [VNumber dw] rt
    = Returned
        (VObject g,
         rt ++ [HostFunction (centerCrop_name width (-1)) 1
                  (centerCropFunc_closure width (-1))])
  ∧ call narrow (VObject f) [] rt
    = Returned
        (VObject g,
         rt ++ [HostFunction (centerCrop_name (-1) (-1)) 1
                  (centerCropFunc_closure (-1) (-1))])
  ∧ call narrow (VObject g) [VObject x] rt1
    = centerCropFunc narrow width height [VObject x] rt1
  ∧ match call narrow (VObject g) [VObject x] rt1 with
    | Returned (v1, rt2) =>
        rt2 !! g = Some callable
        ∧ ∃ v2 rt3 t size offsets,
            getImageSize (tensor ox) = Some size
            ∧ cropOffsets size (resolveCropSize width height size)
              = Returned offsets
            ∧ narrowLastTwo narrow (tensor ox) offsets.1 offsets.2
                (resolveCropSize width height size).1
                (resolveCropSize width height size).2
              = Returned t
            ∧ tensor_of rt2 v1 = Some t
            ∧ call narrow (VObject g) [VObject y] rt2 = Returned (v2, rt3)
            ∧ rt3 !! g = Some callable
            ∧ tensor_of rt3 v2 = Some t
            ∧ shape_of rt3 v2 = shape_of rt2 v1
    | Thrown e => call narrow (VObject g) [VObject y] rt1 = Thrown e
    | Undefined => call narrow (VObject g) [VObject y] rt1 = Undefined
    end.
Proof.
  intros Hf Hdw Hdh Hx Hy Heq callable g rt1.
  assert (rt1 !! g = Some callable) as Hg.
  { subst rt1 g. by rewrite lookup_app_r, Nat.sub_diag by lia. }
  assert (rt1 !! x = Some (HostObject ox)) as Hx1
    by (by apply lookup_app_l_Some).
  assert (rt1 !! y = Some (HostObject oy)) as Hy1
    by (by apply lookup_app_l_Some).
  split; [|split; [|split; [|split]]].
  - rewrite (call_function _ _ _ _ _ _ _ Hf). cbn [callHostFunction].
    by rewrite (factory_width_height dw dh width height).
  - rewrite (call_function _ _ _ _ _ _ _ Hf). cbn [callHostFunction].
    by rewrite (factory_width_only dw width).
  - rewrite (call_function _ _ _ _ _ _ _ Hf). cbn [callHostFunction].
    apply factory_no_arguments.
  - by rewrite (call_function _ _ _ _ _ _ _ Hg).
  - rewrite !(call_function _ _ _ _ _ _ _ Hg). cbn [callHostFunction].
    rewrite (centerCropFunc_on_tensor _ _ _ _ _ ox),
      (centerCropFunc_on_tensor _ _ _ _ _ oy) by done.
    rewrite <-Heq.
    destruct (getImageSize (tensor ox)) as [size|] eqn:Hsize; [|done].
    cbn zeta.
    destruct (cropOffsets size _) as [offsets|e|] eqn:Hoff;
      cbn [Outcome_bind handed_back]; [|done..].
    destruct (narrowLastTwo _ _ _ _ _ _) as [t|e|] eqn:Hn;
      cbn [handed_back]; [|done..].
    assert (∀ rt0 : Runtime,
              tensor_of (rt0 ++ [HostObject (mkTensorHostObject t)])
                (VObject (length rt0)) = Some t) as Hnew.
    { intros rt0. unfold tensor_of.
      by rewrite lookup_app_r, Nat.sub_diag by lia. }
    assert ((rt1 ++ [HostObject (mkTensorHostObject t)]) !! g
            = Some callable) as Hg2 by (by apply lookup_app_l_Some).
    split; [done|].
    eexists _, _, t, size, offsets.
    split; [done|]. split; [done|]. split; [done|]. split; [apply Hnew|].
    rewrite (call_function _ _ _ _ _ _ _ Hg2). cbn [callHostFunction].
    rewrite (centerCropFunc_on_tensor _ _ _ _ _ oy)
      by (by apply lookup_app_l_Some).
    rewrite <-Heq, Hsize. cbn zeta. rewrite Hoff. cbn [Outcome_bind].
    rewrite Hn. cbn [handed_back].
    split; [done|]. split; [by apply lookup_app_l_Some|].
    split; [apply Hnew|]. unfold shape_of. by rewrite !Hnew.
Qed.

(** [centerCrop(6, 4)] called on the factory of a runtime that also holds a
    3 x 9 x 12 tensor, and the callable it returns invoked twice on that
    tensor: the callable captures 6 and 4, and both results have shape
    3 x 4 x 6. *)
Lemma captured_specification_fixed_witness :
  ∃ g rt1 v1 rt2 v2 rt3,
    call ATen.narrow (VObject 0) [number 6; number 4]
      [HostFunction CENTER_CROP 1 centerCropFactoryFunc_closure;
       HostObject (mkTensorHostObject (contiguous [3; 9; 12]))]
    = Returned (VObject g, rt1)
    ∧ rt1 !! g = Some (HostFunction "CenterCrop(6, 4)" 1
                         (centerCropFunc_closure 6 4))
    ∧ call ATen.narrow (VObject g) [VObject 1%nat] rt1 = Returned (v1, rt2)
    ∧ call ATen.narrow (VObject g) [VObject 1%nat] rt2 = Returned (v2, rt3)
    ∧ shape_of rt2 v1 = Some [3; 4; 6]
    ∧ shape_of rt3 v2 = Some [3; 4; 6].
Proof.
  pose proof (captured_specification_fixed ATen.narrow
                [HostFunction CENTER_CROP 1 centerCropFactoryFunc_closure;
                 HostObject (mkTensorHostObject (contiguous [3; 9; 12]))]
                0 CENTER_CROP 1 (double 6) (double 4) 6 4 1 1
                (mkTensorHostObject (contiguous [3; 9; 12]))
                (mkTensorHostObject (contiguous [3; 9; 12]))
                eq_refl eq_refl eq_refl eq_refl eq_refl eq_refl)
    as (Hmake & _ & _ & _ & Hrun).
  cbv zeta in Hmake, Hrun.
  destruct (call ATen.narrow (VObject (length _)) [VObject 1%nat] _)
    as [[v1 rt2]|e|] eqn:Hfirst; [|discriminate Hfirst..].
  destruct Hrun
    as (_ & v2 & rt3 & t & size & offsets & _ & _ & _ & _ & Hsecond & _ & _
        & Hshape).
  eexists _, _, v1, rt2, v2, rt3.
  split; [exact Hmake|]. split; [reflexivity|].
  split; [exact Hfirst|]. split; [exact Hsecond|].
  assert (shape_of rt2 v1 = Some [3; 4; 6]) as H1
    by (by injection Hfirst as <- <-).
  split; [exact H1|]. by rewrite Hshape.
Defined.

(** ** The sentinel and the conversion of the arguments *)


Lemma double_to_int_truncate (d : spec_float) (z : Z) :
  double_to_int d = Returned z → truncate d = Some z ∧ CInt.in_range z.
Proof.
  unfold double_to_int. destruct (truncate d) as [z'|]; [|done].
  destruct (CInt.in_rangeb z') eqn:Hr; [|done].
  intros [= <-]. split; [done|].
  unfold CInt.in_rangeb in Hr. apply andb_true_iff in Hr as [H1 H2].
  apply Z.leb_le in H1, H2. by split.
Qed.



(** ** Tensors with fewer than two dimensions *)

Lemma last_two_split {A : Type} (l : list A) :
  (2 ≤ length l)%nat → ∃ pre a b, l = pre ++ [a; b].
Proof.
  intros Hlen.
  destruct (drop (length l - 2) l) as [|a [|b [|c rest]]] eqn:Hdrop.
  all: pose proof (f_equal length Hdrop) as Hl;
    rewrite length_drop in Hl; cbn in Hl; try lia.
  exists (take (length l - 2) l), a, b.
  by rewrite <-Hdrop, take_drop.
Qed.

(** C10.  The invocation reads the sizes at [length - 1] and [length - 2]
    without looking at the number of dimensions.  For a tensor with fewer than
    two dimensions the unsigned [length - 2] has wrapped around to
    [length - 2 + 2^64], the lookup at that index is outside of the array, the
    image size is not defined and neither is the invocation, whatever the
    slicing primitive is.  For a tensor with at least two dimensions both
    lookups are inside the array and the image size is read; the invocation,
    with the library's primitive, is then defined whenever the offsets of
    lines 126-127 are, that is unless a subtraction overflows [int]. *)
Theorem image_size_needs_two_dimensions (t : Tensor) :
  ((length (sizes t) < 2)%nat →
   CInt.size_t_sub (Z.of_nat (length (sizes t))) 2
   = Z.of_nat (length (sizes t)) - 2 + 2 ^ 64
   ∧ at_index (sizes t) (CInt.size_t_sub (Z.of_nat (length (sizes t))) 2)
     = None
   ∧ getImageSize t = None
   ∧ ∀ narrow width height (rt : Runtime) ref,
       rt !! ref = Some (HostObject (mkTensorHostObject t)) →
       centerCropFunc narrow width height [VObject ref] rt = Undefined)
  ∧ ((2 ≤ length (sizes t))%nat →
     ∃ size,
       getImageSize t = Some size
       ∧ ∀ width height (rt : Runtime) ref,
           rt !! ref = Some (HostObject (mkTensorHostObject t)) →
           cropOffsets size (resolveCropSize width height size) ≠ Undefined →
           centerCropFunc ATen.narrow width height [VObject ref] rt
           ≠ Undefined).
Proof.
  split.
  - intros Hlen.
    assert (CInt.size_t_sub (Z.of_nat (length (sizes t))) 2
            = Z.of_nat (length (sizes t)) - 2 + 2 ^ 64) as Hwrap.
    { unfold CInt.size_t_sub.
      destruct (Z.leb_spec 2 (Z.of_nat (length (sizes t)))); [lia|done]. }
    split; [done|]. split; [|split].
    + apply at_index_out. rewrite Hwrap. lia.
    + by apply getImageSize_too_few.
    + intros narrow width height rt ref Href.
      rewrite (centerCropFunc_on_tensor _ _ _ _ _ _ Href). cbn [tensor].
      by rewrite getImageSize_too_few.
  - intros Hlen.
    destruct (last_two_split _ Hlen) as (pre & H & W & Hs).
    pose proof (getImageSize_last_two t pre H W Hs) as Hsize.
    eexists. split; [exact Hsize|].
    intros width height rt ref Href Hoff.
    rewrite (centerCropFunc_on_tensor _ _ _ _ _ _ Href). cbn [tensor].
    rewrite Hsize. cbn zeta.
    destruct (cropOffsets _ _) as [offsets|e|];
      cbn [Outcome_bind handed_back]; [|done..].
    destruct (narrowLastTwo _ _ _ _ _ _) as [t'|e|] eqn:Hn; [done..|].
    by apply narrowLastTwo_defined in Hn.
Qed.

(** A tensor with the single dimension 4, and a scalar tensor: the image
    size is not defined; for a 9 x 12 tensor it is (12, 9). *)
Lemma image_size_needs_two_dimensions_witness :
  (getImageSize (contiguous [4]) = None
   ∧ centerCropFunc ATen.narrow (-1) (-1) [VObject 0]
       [HostObject (mkTensorHostObject (contiguous [4]))] = Undefined)
  ∧ getImageSize (contiguous []) = None
  ∧ ∃ size, getImageSize (contiguous [9; 12]) = Some size.
Proof.
  split; [|split].
  - destruct (image_size_needs_two_dimensions (contiguous [4]))
      as [Hfew _].
    destruct Hfew as (_ & _ & Hnone & Hrun); [cbn; lia|].
    split; [exact Hnone|]. by apply Hrun.
  - destruct (image_size_needs_two_dimensions (contiguous []))
      as [Hfew _].
    destruct Hfew as (_ & _ & Hnone & _); [cbn; lia|]. exact Hnone.
  - destruct (image_size_needs_two_dimensions (contiguous [9; 12]))
      as [_ Hmany].
    destruct Hmany as (size & Hsome & _); [cbn; lia|]. by exists size.
Defined.

(** ** The host object and its names *)

(** X1.  The host object that the constructor makes in any runtime holds the
    [centerCrop] factory it has just created.  [get] answers for the name
    "centerCrop" with that function, so that calling what [get] returns runs
    the factory, and with undefined for every other name; [getPropertyNames]
    lists no name at all, "centerCrop" included. *)
Theorem host_object_answers_centerCrop (rt : Runtime) :
  ∃ this,
    TransformsHostObject.make rt
    = Returned
        (this,
         rt ++ [HostFunction CENTER_CROP 1 centerCropFactoryFunc_closure])
    ∧ TransformsHostObject.get this CENTER_CROP = VObject (length rt)
    ∧ (∀ name, name ≠ CENTER_CROP →
               TransformsHostObject.get this name = VUndefined)
    ∧ (∀ name, name ∉ TransformsHostObject.getPropertyNames)
    ∧ ∀ narrow args later,
        call narrow (TransformsHostObject.get this CENTER_CROP) args
          (rt ++ [HostFunction CENTER_CROP 1 centerCropFactoryFunc_closure]
              ++ later)
        = centerCropFactoryFunc args
            (rt ++ [HostFunction CENTER_CROP 1 centerCropFactoryFunc_closure]
                ++ later).
Proof.
  exists (TransformsHostObject.mk (VObject (length rt))).
  split; [reflexivity|]. split; [reflexivity|]. split; [|split].
  - intros name Hne. unfold TransformsHostObject.get.
    destruct (String.eqb_spec name CENTER_CROP); done.
  - intros name Hin. cbn in Hin. by apply not_elem_of_nil in Hin.
  - intros narrow args later. cbn [TransformsHostObject.get].
    unfold TransformsHostObject.get. cbn [String.eqb].
    change (String.eqb CENTER_CROP CENTER_CROP) with true. cbn iota.
    cbn [TransformsHostObject.centerCrop_].
    rewrite (call_function narrow _ (length rt) CENTER_CROP 1
               centerCropFactoryFunc_closure); [reflexivity|].
    by rewrite lookup_app_r, Nat.sub_diag by lia.
Qed.

(** In the empty runtime: "centerCrop" is answered, "resize" is not. *)
Lemma host_object_answers_centerCrop_witness :
  ∃ this,
    TransformsHostObject.make []
    = Returned
        (this, [HostFunction CENTER_CROP 1 centerCropFactoryFunc_closure])
    ∧ TransformsHostObject.get this "centerCrop" = VObject 0
    ∧ TransformsHostObject.get this "resize" = VUndefined.
Proof.
  destruct (host_object_answers_centerCrop []) as (this & Hmake & Hget & Hno & _).
  exists this. split; [exact Hmake|]. split; [exact Hget|].
  apply Hno. discriminate.
Defined.

(** ** The factory on its arguments *)

Lemma count_positive {A : Type} (a : A) (l : list A) :
  (0 <? Z.of_nat (length (a :: l))) = true.
Proof. apply Z.ltb_lt. cbn [length]. lia. Qed.

Lemma count_above_one {A : Type} (a b : A) (l : list A) :
  (1 <? Z.of_nat (length (a :: b :: l))) = true.
Proof. apply Z.ltb_lt. cbn [length]. lia. Qed.

(** X2.  The factory reads its first two arguments only: whatever follows
    them changes nothing of what it returns, throws or creates. *)
Theorem factory_ignores_further_arguments
    (a b : Value) (rest : list Value) (rt : Runtime) :
  centerCropFactoryFunc (a :: b :: rest) rt = centerCropFactoryFunc [a; b] rt.
Proof.
  unfold centerCropFactoryFunc.
  by rewrite !count_positive, !count_above_one.
Qed.

(** X3.  A first argument that is not a number makes the factory throw the
    exception of [asNumber], whatever follows it; so does a second argument
    that is not a number after a first one that converts to [int].  No
    callable is created: undefined and null do not stand for an unset
    size. *)
Theorem factory_rejects_non_numbers (rt : Runtime) :
  (∀ v rest,
      is_number v = false →
      centerCropFactoryFunc (v :: rest) rt = Thrown JSINativeException)
  ∧ (∀ d width v rest,
       double_to_int d = Returned width →
       is_number v = false →
       centerCropFactoryFunc (VNumber d :: v :: rest) rt
       = Thrown JSINativeException).
Proof.
  split.
  - intros v rest Hv. unfold centerCropFactoryFunc, JSI_bind, JSI_lift.
    rewrite count_positive. unfold int_argument.
    cbn [lookup list_lookup from_option Outcome_bind].
    by destruct v.
  - intros d width v rest Hd Hv.
    unfold centerCropFactoryFunc, JSI_bind, JSI_lift.
    rewrite count_positive, count_above_one. unfold int_argument.
    cbn [lookup list_lookup from_option Outcome_bind asNumber].
    rewrite Hd. by destruct v.
Qed.

(** [centerCrop(undefined)], [centerCrop(null, 5)] and [centerCrop(6, "4")]
    throw. *)
Lemma factory_rejects_non_numbers_witness :
  centerCropFactoryFunc [VUndefined] [] = Thrown JSINativeException
  ∧ centerCropFactoryFunc [VNull; number 5] [] = Thrown JSINativeException
  ∧ centerCropFactoryFunc [number 6; VString "4"] []
    = Thrown JSINativeException.
Proof.
  destruct (factory_rejects_non_numbers []) as [Hfirst Hsecond].
  split; [|split].
  - by apply Hfirst.
  - by apply Hfirst.
  - by apply (Hsecond (double 6) 6).
Defined.

(** X4.  On a single number the factory returns exactly when the number has
    an integral part that fits [int]: it then creates one callable that
    captures that integer as width and -1 as height.  For NaN, for the
    infinities and for every double whose integral part lies outside of
    [int] the conversion, and so the call, has no defined behaviour; the
    factory never throws on a number. *)
Theorem factory_on_a_number (d : spec_float) (rt : Runtime) :
  ((∃ z, truncate d = Some z ∧ CInt.in_range z) →
   ∃ z, truncate d = Some z
        ∧ centerCropFactoryFunc [VNumber d] rt
          = Returned
              (VObject (length rt),
               rt ++ [HostFunction (centerCrop_name z (-1)) 1
                        (centerCropFunc_closure z (-1))]))
  ∧ (¬ (∃ z, truncate d = Some z ∧ CInt.in_range z) →
     centerCropFactoryFunc [VNumber d] rt = Undefined)
  ∧ (d = S754_nan ∨ (∃ s, d = S754_infinity s) →
     centerCropFactoryFunc [VNumber d] rt = Undefined)
  ∧ ∀ e, centerCropFactoryFunc [VNumber d] rt ≠ Thrown e.
Proof.
  assert (centerCropFactoryFunc [VNumber d] rt
          = match double_to_int d with
            | Returned z =>
                Returned
                  (VObject (length rt),
                   rt ++ [HostFunction (centerCrop_name z (-1)) 1
                            (centerCropFunc_closure z (-1))])
            | Thrown e => Thrown e
            | Undefined => Undefined
            end) as Hrun.
  { unfold centerCropFactoryFunc, JSI_bind, JSI_lift, int_argument.
    cbn [length lookup list_lookup from_option Outcome_bind asNumber].
    change (0 <? Z.of_nat 1) with true. change (1 <? Z.of_nat 1) with false.
    cbn iota. by destruct (double_to_int d). }
  assert (∀ z, CInt.in_rangeb z = true ↔ CInt.in_range z) as Hrange.
  { intros z. unfold CInt.in_rangeb, CInt.in_range.
    rewrite andb_true_iff, !Z.leb_le. done. }
  rewrite Hrun. unfold double_to_int.
  split; [|split; [|split]].
  - intros (z & Hz & Hin). exists z. split; [done|].
    rewrite Hz. apply Hrange in Hin. by rewrite Hin.
  - intros Hnone. destruct (truncate d) as [z|] eqn:Hz; [|done].
    destruct (CInt.in_rangeb z) eqn:Hin; [|done].
    destruct Hnone. exists z. split; [done|]. by apply Hrange.
  - by intros [-> | [s ->]].
  - intros e. destruct (truncate d) as [z|]; [|done].
    by destruct (CInt.in_rangeb z).
Qed.

(** 2.5 is captured as 2; 2^31, as a double, has no defined conversion. *)
Lemma factory_on_a_number_witness :
  (∃ z, truncate (binary_normalize 53 1024 5 (-1) false) = Some z
        ∧ centerCropFactoryFunc
            [VNumber (binary_normalize 53 1024 5 (-1) false)] []
          = Returned
              (VObject 0,
               [HostFunction (centerCrop_name z (-1)) 1
                  (centerCropFunc_closure z (-1))]))
  ∧ centerCropFactoryFunc [number (2 ^ 31)] [] = Undefined
  ∧ centerCropFactoryFunc [VNumber S754_nan] [] = Undefined.
Proof.
  split; [|split].
  - apply (factory_on_a_number (binary_normalize 53 1024 5 (-1) false) []).
    exists 2. split; [reflexivity|].
    unfold CInt.in_range, CInt.INT_MIN, CInt.INT_MAX. lia.
  - destruct (factory_on_a_number (double (2 ^ 31)) []) as (_ & Hout & _).
    apply Hout.
    intros (z & Hz & Hin). vm_compute in Hz. injection Hz as <-.
    unfold CInt.in_range, CInt.INT_MIN, CInt.INT_MAX in Hin. lia.
  - destruct (factory_on_a_number S754_nan []) as (_ & _ & Hnan & _).
    apply Hnan. by left.
Defined.

(** ** What a call leaves in the runtime *)

Lemma int_argument_in_range (args : list Value) (i : nat) (z : Z) :
  int_argument args i = Returned z → CInt.in_range z.
Proof.
  unfold int_argument.
  destruct (args !! i) as [v|]; [|done]. cbn [from_option Outcome_bind].
  destruct v; try done. cbn [asNumber Outcome_bind].
  intros Hd. by apply double_to_int_truncate in Hd as [_ ?].
Qed.

Lemma minus_one_in_range : CInt.in_range (-1).
Proof. unfold CInt.in_range, CInt.INT_MIN, CInt.INT_MAX. lia. Qed.

Lemma factory_returns_named (args : list Value) (rt : Runtime) (f : Value)
    (rt1 : Runtime) :
  centerCropFactoryFunc args rt = Returned (f, rt1) →
  ∃ width height,
    CInt.in_range width ∧ CInt.in_range height
    ∧ f = VObject (length rt)
    ∧ rt1 = rt ++ [HostFunction (centerCrop_name width height) 1
                     (centerCropFunc_closure width height)].
Proof.
  unfold centerCropFactoryFunc, JSI_bind, JSI_lift, createFromHostFunction.
  destruct (if 0 <? _ then _ else _) as [width|e|] eqn:Hw; [|done..].
  destruct (if 1 <? _ then _ else _) as [height|e|] eqn:Hh; [|done..].
  intros [= <- <-]. exists width, height.
  split; [|split; [|done]].
  - destruct (0 <? _); [by eapply int_argument_in_range|].
    injection Hw as <-. apply minus_one_in_range.
  - destruct (1 <? _); [by eapply int_argument_in_range|].
    injection Hh as <-. apply minus_one_in_range.
Qed.

Lemma invocation_returns_new_tensor
    (narrow : Tensor → Z → Z → Z → Outcome Tensor)
    (width height : Z) (args : list Value) (rt : Runtime) (v : Value)
    (rt' : Runtime) :
  centerCropFunc narrow width height args rt = Returned (v, rt') →
  ∃ t, v = VObject (length rt)
       ∧ rt' = rt ++ [HostObject (mkTensorHostObject t)].
Proof.
  unfold centerCropFunc, JSI_bind, JSI_lift, parseTensor, throw,
    createFromHostObject.
  destruct (negb _); [done|].
  destruct (from_option _) as [argument|e|]; [|done..].
  destruct argument as [| | | | |ref]; try done.
  destruct (rt !! ref) as [[|o|]|]; try done.
  destruct (from_option (getImageSize _)) as [size|e|]; [|done..].
  destruct (resolveCropSize _ _ _) as [ch cw].
  destruct (cropOffsets _ _) as [[top left]|e|]; [|done..].
  destruct (narrowLastTwo _ _ _ _ _ _) as [t|e|]; [|done..].
  intros [= <- <-]. by exists t.
Qed.

Lemma call_returned (narrow : Tensor → Z → Z → Z → Outcome Tensor)
    (f : Value) (args : list Value) (rt : Runtime) (v : Value)
    (rt' : Runtime) :
  call narrow f args rt = Returned (v, rt') →
  v = VObject (length rt)
  ∧ ((∃ t, rt' = rt ++ [HostObject (mkTensorHostObject t)])
     ∨ (∃ width height,
          CInt.in_range width ∧ CInt.in_range height
          ∧ rt' = rt ++ [HostFunction (centerCrop_name width height) 1
                           (centerCropFunc_closure width height)])).
Proof.
  unfold call. destruct f as [| | | | |ref]; try done.
  destruct (rt !! ref) as [[| |name paramCount [|width height]]|]; try done;
    cbn [callHostFunction]; intros Hrun.
  - apply factory_returns_named in Hrun
      as (width & height & Hw & Hh & -> & ->).
    split; [done|]. right. by exists width, height.
  - apply invocation_returns_new_tensor in Hrun as (t & -> & ->).
    split; [done|]. left. by exists t.
Qed.

(** X6.  In the runtime that the constructor of the host object makes, and
    in every runtime that calls of the host functions lead to from a
    consistent one, each callable that captures a crop size has one
    parameter, the name "CenterCrop(width, height)" of the size it captures,
    and a width and height that are values of [int]. *)
Theorem callables_stay_consistent :
  (∀ this rt,
      TransformsHostObject.make [] = Returned (this, rt) →
      callables_consistent rt)
  ∧ ∀ (narrow : Tensor → Z → Z → Z → Outcome Tensor) (f : Value)
      (args : list Value) (rt : Runtime) (v : Value) (rt' : Runtime),
      callables_consistent rt →
      call narrow f args rt = Returned (v, rt') →
      callables_consistent rt'.
Proof.
  split.
  - intros this rt [= <- <-] i name paramCount width height Hi.
    by destruct i as [|[|i]].
  - intros narrow f args rt v rt' Hrt Hrun.
    apply call_returned in Hrun as [_ Hnew].
    intros i name paramCount width height Hi.
    destruct Hnew as [(t & ->)|(w & h & Hw & Hh & ->)].
    + apply lookup_app_Some in Hi as [Hi|[_ Hi]]; [by eapply Hrt|].
      by destruct (i - length rt)%nat as [|[|n]].
    + apply lookup_app_Some in Hi as [Hi|[_ Hi]]; [by eapply Hrt|].
      destruct (i - length rt)%nat as [|[|n]]; try done.
      by injection Hi as <- <- <- <-.
Qed.

(** After [centerCrop(6, 4)] in the runtime of a new host object. *)
Lemma callables_stay_consistent_witness :
  callables_consistent
    [HostFunction CENTER_CROP 1 centerCropFactoryFunc_closure;
     HostFunction "CenterCrop(6, 4)" 1 (centerCropFunc_closure 6 4)].
Proof.
  destruct callables_stay_consistent as [Hmake Hcall].
  apply (Hcall ATen.narrow (VObject 0) [number 6; number 4]
           [HostFunction CENTER_CROP 1 centerCropFactoryFunc_closure]
           (VObject 1%nat)).
  - by apply (Hmake (TransformsHostObject.mk (VObject 0))).
  - reflexivity.
Defined.

(** ** The name of a callable *)

Lemma split_at_separator (c : ascii) (s s' r r' : string) :
  free_of c s → free_of c s' →
  String.append s (String c r) = String.append s' (String c r') →
  s = s' ∧ r = r'.
Proof.
  revert s'. induction s as [|a s IH]; intros [|a' s']; cbn.
  - by intros _ _ [= ->].
  - intros _ [Hne _] [= <- _]. done.
  - intros [Hne _] _ [= -> _]. done.
  - intros [_ Hs] [_ Hs'] [= -> Heq].
    destruct (IH s' Hs Hs' Heq) as [-> ->]. done.
Qed.

Lemma digits_free_of (c : ascii) (d : Decimal.uint) :
  c = ","%char ∨ c = ")"%char → free_of c (NilEmpty.string_of_uint d).
Proof.
  intros Hc. induction d; cbn; try done; (split; [|done]);
    by destruct Hc as [-> | ->].
Qed.

Lemma to_string_free_of (c : ascii) (z : Z) :
  c = ","%char ∨ c = ")"%char → free_of c (to_string z).
Proof.
  intros Hc. unfold to_string, NilZero.string_of_int, NilZero.string_of_uint.
  assert (free_of c "0") as Hzero.
  { cbn. split; [|done]. by destruct Hc as [-> | ->]. }
  destruct (Z.to_int z) as [d|d].
  - destruct d; try done; by apply (digits_free_of c).
  - cbn. split; [by destruct Hc as [-> | ->]|].
    destruct d; try done; by apply (digits_free_of c).
Qed.

Lemma to_string_inj (z z' : Z) : to_string z = to_string z' → z = z'.
Proof.
  unfold to_string. intros Heq.
  apply DecimalZ.to_int_inj.
  assert (∀ n, Z.to_int n ≠ Decimal.Pos Decimal.Nil
               ∧ Z.to_int n ≠ Decimal.Neg Decimal.Nil) as Hnonnil.
  { intros [|p|p]; cbn; split; try done;
      intros [= Hp]; by apply DecimalPos.Unsigned.to_uint_nonnil in Hp. }
  apply (f_equal NilZero.int_of_string) in Heq.
  rewrite !NilZero.isi in Heq by apply Hnonnil.
  by injection Heq.
Qed.

(** X7.  The name that the factory gives to a callable determines the crop
    size the callable captures: two names "CenterCrop(w, h)" are equal only
    for the same width and the same height. *)
Theorem name_determines_size (width height width' height' : Z) :
  centerCrop_name width height = centerCrop_name width' height'
  ↔ width = width' ∧ height = height'.
Proof.
  split; [|by intros [-> ->]].
  unfold centerCrop_name. intros Heq.
  cbn [String.append] in Heq.
  injection Heq as Heq.
  apply (split_at_separator ","%char) in Heq
    as [Hw Hrest]; [|by apply to_string_free_of; left..].
  injection Hrest as Hrest.
  apply (split_at_separator ")"%char) in Hrest
    as [Hh _]; [|by apply to_string_free_of; right..].
  split; by apply to_string_inj.
Qed.

(** The names for 6 x 4 and for 64 x 0 differ. *)
Lemma name_determines_size_witness :
  centerCrop_name 6 4 = "CenterCrop(6, 4)"%string
  ∧ centerCrop_name 6 4 ≠ centerCrop_name 64 0.
Proof.
  split; [reflexivity|].
  intros Heq. apply (name_determines_size 6 4 64 0) in Heq as [Hw _].
  discriminate Hw.
Defined.

(** ** What the cropped view contains *)

Lemma foldr_add_from (b : Z) (l : list Z) :
  foldr Z.add b l = foldr Z.add 0 l + b.
Proof. induction l as [|a l IH]; cbn; lia. Qed.

Lemma element_offset_last_two (t : Tensor) (dpre : list Dim) (dH dW : Dim)
    (ipre : list Z) (i j : Z) :
  tensor_dims t = dpre ++ [dH; dW] →
  length ipre = length dpre →
  element_offset t (ipre ++ [i; j])
  = storage_offset t
    + foldr Z.add 0 (zip_with (λ i d, i * dim_stride d) ipre dpre)
    + i * dim_stride dH + j * dim_stride dW.
Proof.
  intros Hd Hlen. unfold element_offset. rewrite Hd.
  rewrite zip_with_app by done. rewrite foldr_app, foldr_add_from.
  cbn. lia.
Qed.

Lemma centered_margins (n c : Z) :
  0 ≤ c ≤ n →
  (n - c) ÷ 2 ≤ n - c - (n - c) ÷ 2 ≤ (n - c) ÷ 2 + 1.
Proof.
  intros Hc. rewrite quot2_nonneg by lia.
  pose proof (Z.div_mod (n - c) 2 ltac:(lia)).
  pose proof (Z.mod_pos_bound (n - c) 2 ltac:(lia)).
  lia.
Qed.

(** X8.  When the resolved crop fits into the image, the returned tensor is
    a view of the input with the same strides: its element at [..., i, j] is
    the element of the input at [..., i + top, j + left], where top is
    (H - cropHeight) / 2 and left is (W - cropWidth) / 2.  The window is
    centered: the rows left out below it are as many as those above it or
    one more, and likewise the columns to its right and to its left. *)
Theorem cropped_view_is_centered_window
    (width height : Z) (rt : Runtime) (ref : nat) (o : TensorHostObject)
    (dpre : list Dim) (H W sH sW ch cw : Z) :
  rt !! ref = Some (HostObject o) →
  tensor_dims (tensor o) = dpre ++ [mkDim H sH; mkDim W sW] →
  0 ≤ H ≤ CInt.INT_MAX → 0 ≤ W ≤ CInt.INT_MAX →
  resolveCropSize width height (W, H) = (ch, cw) →
  0 ≤ ch ≤ H → 0 ≤ cw ≤ W →
  let top := (H - ch) ÷ 2 in
  let left := (W - cw) ÷ 2 in
  ∃ v rt' t',
    centerCropFunc ATen.narrow width height [VObject ref] rt
    = Returned (v, rt')
    ∧ tensor_of rt' v = Some t'
    ∧ dim_stride <$> tensor_dims t' = dim_stride <$> tensor_dims (tensor o)
    ∧ (∀ ipre i j,
         length ipre = length dpre →
         element_offset t' (ipre ++ [i; j])
         = element_offset (tensor o) (ipre ++ [i + top; j + left]))
    ∧ top ≤ H - ch - top ≤ top + 1
    ∧ left ≤ W - cw - left ≤ left + 1.
Proof.
  intros Href Hd HH HW Hcrop Hch Hcw top left.
  eexists _, _, _. split; [by eapply centerCrop_inside|].
  split; [unfold tensor_of; by rewrite lookup_app_r, Nat.sub_diag by lia|].
  cbn [tensor]. split; [|split; [|split]].
  - cbn [tensor_dims]. rewrite Hd, !fmap_app. done.
  - intros ipre i j Hlen.
    rewrite (element_offset_last_two _ dpre (mkDim ch sH) (mkDim cw sW))
      by done.
    rewrite (element_offset_last_two _ dpre (mkDim H sH) (mkDim W sW))
      by done.
    cbn. subst top left. lia.
  - by apply centered_margins.
  - by apply centered_margins.
Qed.

(** A contiguous 3 x 9 x 12 tensor cropped to 4 x 6: element (c, i, j) of
    the result is element (c, i + 2, j + 3) of the input. *)
Lemma cropped_view_is_centered_window_witness :
  ∃ v rt' t',
    centerCropFunc ATen.narrow 6 4 [VObject 0]
      [HostObject (mkTensorHostObject (contiguous [3; 9; 12]))]
    = Returned (v, rt')
    ∧ tensor_of rt' v = Some t'
    ∧ ∀ c i j,
        element_offset t' ([c] ++ [i; j])
        = element_offset (contiguous [3; 9; 12]) ([c] ++ [i + 2; j + 3]).
Proof.
  destruct (cropped_view_is_centered_window 6 4
              [HostObject (mkTensorHostObject (contiguous [3; 9; 12]))]
              0 (mkTensorHostObject (contiguous [3; 9; 12]))
              [mkDim 3 108] 9 12 12 1 4 6)
    as (v & rt' & t' & Hrun & Ht & _ & Helem & _);
    try reflexivity; try (unfold CInt.INT_MAX; lia).
  exists v, rt', t'. split; [exact Hrun|]. split; [exact Ht|].
  intros c i j. by apply (Helem [c]).
Defined.

(** ** Crops applied again *)

Lemma resolve_again (width height H W ch cw : Z) :
  resolveCropSize width height (W, H) = (ch, cw) →
  resolveCropSize width height (cw, ch) = (ch, cw).
Proof.
  unfold resolveCropSize. cbn [fst snd].
  destruct (width =? -1).
  - intros [= <- <-]. cbn zeta.
    by rewrite (min_spec (CInt.min W H)), Z.min_id.
  - by destruct (height =? -1).
Qed.

(** X9.  Every callable is idempotent on the images it can crop: invoked on
    the tensor it has returned, it returns that same view again, with the
    same shape, strides and offset, in a new object. *)
Theorem crop_is_idempotent
    (width height : Z) (rt : Runtime) (ref : nat) (o : TensorHostObject)
    (pre : list Z) (H W ch cw : Z) :
  rt !! ref = Some (HostObject o) →
  sizes (tensor o) = pre ++ [H; W] →
  0 ≤ H ≤ CInt.INT_MAX → 0 ≤ W ≤ CInt.INT_MAX →
  resolveCropSize width height (W, H) = (ch, cw) →
  0 ≤ ch ≤ H → 0 ≤ cw ≤ W →
  ∃ v1 rt1 v2 rt2 t',
    centerCropFunc ATen.narrow width height [VObject ref] rt
    = Returned (v1, rt1)
    ∧ centerCropFunc ATen.narrow width height [v1] rt1 = Returned (v2, rt2)
    ∧ tensor_of rt1 v1 = Some t'
    ∧ tensor_of rt2 v2 = Some t'
    ∧ sizes t' = pre ++ [ch; cw]
    ∧ v2 ≠ v1.
Proof.
  intros Href Hs HH HW Hcrop Hch Hcw.
  destruct (sizes_last_two_inv _ _ _ _ Hs) as (dpre & sH & sW & Hd & Hpre).
  pose proof (centerCrop_inside width height rt ref o dpre H W sH sW ch cw
                Href Hd HH HW Hcrop Hch Hcw) as Hfirst.
  set (t1 := {| storage_offset :=
                  storage_offset (tensor o)
                  + (H - ch) ÷ 2 * sH + (W - cw) ÷ 2 * sW;
                tensor_dims := dpre ++ [mkDim ch sH; mkDim cw sW] |}) in *.
  set (rt1 := rt ++ [HostObject (mkTensorHostObject t1)]) in *.
  assert (rt1 !! length rt = Some (HostObject (mkTensorHostObject t1)))
    as Href1.
  { subst rt1. by rewrite lookup_app_r, Nat.sub_diag by lia. }
  assert (0 ≤ ch ≤ CInt.INT_MAX ∧ 0 ≤ cw ≤ CInt.INT_MAX) as [Hch' Hcw']
    by lia.
  assert (0 ≤ ch ≤ ch ∧ 0 ≤ cw ≤ cw) as [Hch1 Hcw1] by lia.
  pose proof (centerCrop_inside width height rt1 (length rt)
                (mkTensorHostObject t1) dpre ch cw sH sW ch cw
                Href1 eq_refl Hch' Hcw'
                (resolve_again _ _ _ _ _ _ Hcrop) Hch1 Hcw1)
    as Hsecond.
  cbn [tensor] in Hsecond.
  replace {| storage_offset :=
               storage_offset t1 + (ch - ch) ÷ 2 * sH + (cw - cw) ÷ 2 * sW;
             tensor_dims := dpre ++ [mkDim ch sH; mkDim cw sW] |}
    with t1 in Hsecond.
  2: { subst t1. cbn [storage_offset]. f_equal.
       rewrite !Z.sub_diag. change (0 ÷ 2) with 0. ring. }
  exists (VObject (length rt)), rt1, (VObject (length rt1)),
    (rt1 ++ [HostObject (mkTensorHostObject t1)]), t1.
  split; [exact Hfirst|]. split; [exact Hsecond|].
  split; [unfold tensor_of; by rewrite Href1|].
  split; [unfold tensor_of; by rewrite lookup_app_r, Nat.sub_diag by lia|].
  split.
  - unfold sizes. subst t1. cbn. by rewrite fmap_app, Hpre.
  - subst rt1. rewrite length_app. cbn. intros [= Heq]. lia.
Qed.

(** The 4 x 6 crop of a 3 x 9 x 12 tensor, cropped again. *)
Lemma crop_is_idempotent_witness :
  ∃ v1 rt1 v2 rt2 t',
    centerCropFunc ATen.narrow 6 4 [VObject 0]
      [HostObject (mkTensorHostObject (contiguous [3; 9; 12]))]
    = Returned (v1, rt1)
    ∧ centerCropFunc ATen.narrow 6 4 [v1] rt1 = Returned (v2, rt2)
    ∧ tensor_of rt1 v1 = Some t'
    ∧ tensor_of rt2 v2 = Some t'
    ∧ sizes t' = [3; 4; 6].
Proof.
  destruct (crop_is_idempotent 6 4
              [HostObject (mkTensorHostObject (contiguous [3; 9; 12]))]
              0 (mkTensorHostObject (contiguous [3; 9; 12])) [3] 9 12 4 6)
    as (v1 & rt1 & v2 & rt2 & t' & H1 & H2 & Ht1 & Ht2 & Hs & _);
    try reflexivity; try (unfold CInt.INT_MAX; lia).
  by exists v1, rt1, v2, rt2, t'.
Defined.

(** X10.  A crop of exactly the size of the image takes nothing away: the
    tensor returned is the view that was given, in a new object. *)
Theorem full_size_crop_is_identity
    (rt : Runtime) (ref : nat) (o : TensorHostObject) (pre : list Z)
    (H W : Z) :
  rt !! ref = Some (HostObject o) →
  sizes (tensor o) = pre ++ [H; W] →
  0 ≤ H ≤ CInt.INT_MAX → 0 ≤ W ≤ CInt.INT_MAX →
  ∃ v rt',
    centerCropFunc ATen.narrow W H [VObject ref] rt = Returned (v, rt')
    ∧ tensor_of rt' v = Some (tensor o)
    ∧ v ≠ VObject ref.
Proof.
  intros Href Hs HH HW.
  destruct (sizes_last_two_inv _ _ _ _ Hs) as (dpre & sH & sW & Hd & Hpre).
  assert (W ≠ -1 ∧ H ≠ -1) as [HWne HHne] by lia.
  assert (0 ≤ H ≤ H ∧ 0 ≤ W ≤ W) as [HH1 HW1] by lia.
  pose proof (centerCrop_inside W H rt ref o dpre H W sH sW H W
                Href Hd HH HW
                (resolve_explicit W H _ HWne HHne) HH1 HW1) as Hrun.
  replace {| storage_offset :=
               storage_offset (tensor o)
               + (H - H) ÷ 2 * sH + (W - W) ÷ 2 * sW;
             tensor_dims := dpre ++ [mkDim H sH; mkDim W sW] |}
    with (tensor o) in Hrun.
  2: { destruct (tensor o) as [off ds]. cbn in Hd |- *. subst ds. f_equal.
       rewrite !Z.sub_diag. change (0 ÷ 2) with 0. ring. }
  eexists _, _. split; [exact Hrun|]. split.
  - unfold tensor_of. by rewrite lookup_app_r, Nat.sub_diag by lia.
  - pose proof (lookup_lt_Some _ _ _ Href). intros [= Heq]. lia.
Qed.

(** A 3 x 9 x 12 tensor under [centerCrop(12, 9)]. *)
Lemma full_size_crop_is_identity_witness :
  ∃ v rt',
    centerCropFunc ATen.narrow 12 9 [VObject 0]
      [HostObject (mkTensorHostObject (contiguous [3; 9; 12]))]
    = Returned (v, rt')
    ∧ tensor_of rt' v = Some (contiguous [3; 9; 12]).
Proof.
  destruct (full_size_crop_is_identity
              [HostObject (mkTensorHostObject (contiguous [3; 9; 12]))]
              0 (mkTensorHostObject (contiguous [3; 9; 12])) [3] 9 12)
    as (v & rt' & Hrun & Ht & _);
    try reflexivity; try (unfold CInt.INT_MAX; lia).
  by exists v, rt'.
Defined.

(** ** Sizes that no image can satisfy *)

Lemma ATen_narrow_negative_length (t : Tensor) (dim start len : Z)
    (t' : Tensor) :
  len < 0 → ATen.narrow t dim start len ≠ Returned t'.
Proof.
  intros Hlen. unfold ATen.narrow.
  destruct (ndimension t <=? 0); [done|].
  destruct (ATen.maybe_wrap_dim dim _) as [d|e|]; cbn [Outcome_bind];
    [|done..].
  destruct (tensor_dims t !! Z.to_nat d) as [cur|]; [|done].
  destruct (if start =? dim_size cur then _ else _) as [s|e|];
    cbn [Outcome_bind]; [|done..].
  destruct (Z.leb_spec 0 len); [lia|done].
Qed.

Lemma narrowLastTwo_negative_size (t : Tensor) (top left ch cw : Z)
    (t' : Tensor) :
  ch < 0 ∨ cw < 0 →
  narrowLastTwo ATen.narrow t top left ch cw ≠ Returned t'.
Proof.
  intros Hneg. unfold narrowLastTwo.
  destruct (ATen.narrow t _ top ch) as [t1|e|] eqn:H1; cbn [Outcome_bind];
    [|done..].
  destruct Hneg as [Hch|Hcw].
  - by apply ATen_narrow_negative_length in H1.
  - by apply ATen_narrow_negative_length.
Qed.

(** X11.  The factory checks no size: it creates a callable for any two
    numbers that convert to [int], negative ones included.  A callable whose
    width is below -1, or whose width is set and whose height is below -1,
    returns for no argument list in no runtime: every invocation of it
    throws or is undefined. *)
Theorem negative_size_never_returns
    (dw dh : spec_float) (width height : Z) :
  double_to_int dw = Returned width →
  double_to_int dh = Returned height →
  width < -1 ∨ (width ≠ -1 ∧ height < -1) →
  (∀ rt, ∃ g rt1,
      centerCropFactoryFunc [VNumber dw; VNumber dh] rt = Returned (g, rt1)
      ∧ rt1 !! length rt
        = Some (HostFunction (centerCrop_name width height) 1
                  (centerCropFunc_closure width height))
      ∧ g = VObject (length rt))
  ∧ ∀ args rt v rt',
      centerCropFunc ATen.narrow width height args rt ≠ Returned (v, rt').
Proof.
  intros Hdw Hdh Hneg. split.
  - intros rt. eexists _, _.
    split; [by apply factory_width_height|].
    split; [|done]. by rewrite lookup_app_r, Nat.sub_diag by lia.
  - intros args rt v rt'.
    unfold centerCropFunc, JSI_bind, JSI_lift, parseTensor, throw,
      createFromHostObject.
    destruct (negb _); [done|].
    destruct (from_option _) as [argument|e|]; [|done..].
    destruct argument as [| | | | |ref]; try done.
    destruct (rt !! ref) as [[|o|]|]; try done.
    destruct (from_option (getImageSize _)) as [size|e|]; [|done..].
    destruct (resolveCropSize width height size) as [ch cw] eqn:Hcrop.
    destruct (cropOffsets _ _) as [[top left]|e|]; [|done..].
    destruct (narrowLastTwo _ _ _ _ _ _) as [t|e|] eqn:Hn; [|done..].
    apply narrowLastTwo_negative_size in Hn; [done|].
    unfold resolveCropSize in Hcrop.
    destruct (Z.eqb_spec width (-1)); [lia|].
    destruct (Z.eqb_spec height (-1)); injection Hcrop as <- <-; lia.
Qed.

(** [centerCrop(-5, 4)] makes a callable; on a 3 x 9 x 12 tensor it throws. *)
Lemma negative_size_never_returns_witness :
  (∃ g rt1,
      centerCropFactoryFunc [number (-5); number 4] [] = Returned (g, rt1))
  ∧ centerCropFunc ATen.narrow (-5) 4 [VObject 0]
      [HostObject (mkTensorHostObject (contiguous [3; 9; 12]))]
    = Thrown c10_Error.
Proof.
  destruct (negative_size_never_returns (double (-5)) (double 4) (-5) 4)
    as [Hmake Hnever]; [reflexivity|reflexivity|left; lia|].
  split.
  - destruct (Hmake []) as (g & rt1 & Hrun & _). by exists g, rt1.
  - reflexivity.
Defined.

(** ** The sign of the offsets *)

(** X12.  The truncating division makes the top offset negative exactly when
    the crop is at least two rows higher than the image, and zero when it is
    one row higher or lower or of the same height; the left offset behaves
    the same on the widths. *)
Theorem offset_sign (H W cropHeight cropWidth : Z) :
  CInt.in_range (H - cropHeight) → CInt.in_range (W - cropWidth) →
  ∃ cropTop cropLeft,
    cropOffsets (W, H) (cropHeight, cropWidth) = Returned (cropTop, cropLeft)
    ∧ (cropTop < 0 ↔ H + 2 ≤ cropHeight)
    ∧ (cropTop = 0 ↔ H - 1 ≤ cropHeight ≤ H + 1)
    ∧ (cropLeft < 0 ↔ W + 2 ≤ cropWidth)
    ∧ (cropLeft = 0 ↔ W - 1 ≤ cropWidth ≤ W + 1).
Proof.
  intros HH HW. eexists _, _.
  split; [by apply cropOffsets_exact|].
  assert (∀ z, (z ÷ 2 < 0 ↔ z ≤ -2) ∧ (z ÷ 2 = 0 ↔ -1 ≤ z ≤ 1)) as Hq.
  { intros z. Z.to_euclidean_division_equations. lia. }
  destruct (Hq (H - cropHeight)) as [Hh1 Hh2].
  destruct (Hq (W - cropWidth)) as [Hw1 Hw2].
  rewrite Hh1, Hh2, Hw1, Hw2. lia.
Qed.

(** A crop one row higher than a 4 x 4 image has the top offset 0; one of
    height 6 has the top offset -1. *)
Lemma offset_sign_witness :
  (∃ cropLeft, cropOffsets (4, 4) (5, 4) = Returned (0, cropLeft))
  ∧ ∃ cropTop cropLeft,
      cropOffsets (4, 4) (6, 4) = Returned (cropTop, cropLeft) ∧ cropTop < 0.
Proof.
  assert (∀ z, -100 ≤ z ≤ 100 → CInt.in_range z) as Hsmall.
  { unfold CInt.in_range, CInt.INT_MIN, CInt.INT_MAX. lia. }
  split.
  - destruct (offset_sign 4 4 5 4)
      as (top & left & Hoff & _ & Hzero & _); [apply Hsmall; lia..|].
    exists left. rewrite Hoff. f_equal. f_equal. apply Hzero. lia.
  - destruct (offset_sign 4 4 6 4)
      as (top & left & Hoff & Hneg & _); [apply Hsmall; lia..|].
    exists top, left. split; [exact Hoff|]. apply Hneg. lia.
Defined.

(** ** One crop after another *)

Lemma two_step_offset (n c1 c2 : Z) :
  0 ≤ c2 ≤ c1 → c1 ≤ n →
  (n - c2) ÷ 2 - 1 ≤ (n - c1) ÷ 2 + (c1 - c2) ÷ 2 ≤ (n - c2) ÷ 2
  ∧ (Z.even (n - c1) || Z.even (c1 - c2) = true →
     (n - c1) ÷ 2 + (c1 - c2) ÷ 2 = (n - c2) ÷ 2).
Proof.
  intros H2 H1. rewrite !quot2_nonneg by lia.
  pose proof (Z.div_mod (n - c1) 2 ltac:(lia)) as E1.
  pose proof (Z.div_mod (c1 - c2) 2 ltac:(lia)) as E2.
  pose proof (Z.div_mod (n - c2) 2 ltac:(lia)) as E3.
  pose proof (Z.mod_pos_bound (n - c1) 2 ltac:(lia)).
  pose proof (Z.mod_pos_bound (c1 - c2) 2 ltac:(lia)).
  pose proof (Z.mod_pos_bound (n - c2) 2 ltac:(lia)).
  split; [lia|].
  intros Heven. apply orb_true_iff in Heven.
  rewrite !Z.even_spec in Heven.
  destruct Heven as [[k Hk]|[k Hk]]; lia.
Qed.

(** X13.  A crop applied to the result of a larger crop returns the view
    whose element at [..., i, j] is the element of the first input at
    [..., i + top1 + top2, j + left1 + left2], the sums of the offsets of the
    two steps.  Each sum is the offset of the direct crop to the final size,
    or one less; it is the same whenever one of the two size differences of
    that axis is even. *)
Theorem crops_compose
    (w1 h1 w2 h2 : Z) (rt : Runtime) (ref : nat) (o : TensorHostObject)
    (dpre : list Dim) (H W sH sW ch1 cw1 ch2 cw2 : Z) :
  rt !! ref = Some (HostObject o) →
  tensor_dims (tensor o) = dpre ++ [mkDim H sH; mkDim W sW] →
  0 ≤ H ≤ CInt.INT_MAX → 0 ≤ W ≤ CInt.INT_MAX →
  resolveCropSize w1 h1 (W, H) = (ch1, cw1) →
  resolveCropSize w2 h2 (cw1, ch1) = (ch2, cw2) →
  0 ≤ ch2 ≤ ch1 → ch1 ≤ H → 0 ≤ cw2 ≤ cw1 → cw1 ≤ W →
  let top := (H - ch1) ÷ 2 + (ch1 - ch2) ÷ 2 in
  let left := (W - cw1) ÷ 2 + (cw1 - cw2) ÷ 2 in
  ∃ v1 rt1 v2 rt2 t2,
    centerCropFunc ATen.narrow w1 h1 [VObject ref] rt = Returned (v1, rt1)
    ∧ centerCropFunc ATen.narrow w2 h2 [v1] rt1 = Returned (v2, rt2)
    ∧ tensor_of rt2 v2 = Some t2
    ∧ sizes t2 = (dim_size <$> dpre) ++ [ch2; cw2]
    ∧ (∀ ipre i j,
         length ipre = length dpre →
         element_offset t2 (ipre ++ [i; j])
         = element_offset (tensor o) (ipre ++ [i + top; j + left]))
    ∧ (H - ch2) ÷ 2 - 1 ≤ top ≤ (H - ch2) ÷ 2
    ∧ (W - cw2) ÷ 2 - 1 ≤ left ≤ (W - cw2) ÷ 2
    ∧ (Z.even (H - ch1) || Z.even (ch1 - ch2) = true →
       top = (H - ch2) ÷ 2)
    ∧ (Z.even (W - cw1) || Z.even (cw1 - cw2) = true →
       left = (W - cw2) ÷ 2).
Proof.
  intros Href Hd HH HW Hc1 Hc2 Hh2 Hh1 Hw2 Hw1 top left.
  assert (0 ≤ ch1 ≤ H ∧ 0 ≤ cw1 ≤ W) as [Hfh Hfw] by lia.
  pose proof (centerCrop_inside w1 h1 rt ref o dpre H W sH sW ch1 cw1
                Href Hd HH HW Hc1 Hfh Hfw) as Hfirst.
  set (t1 := {| storage_offset :=
                  storage_offset (tensor o)
                  + (H - ch1) ÷ 2 * sH + (W - cw1) ÷ 2 * sW;
                tensor_dims := dpre ++ [mkDim ch1 sH; mkDim cw1 sW] |}) in *.
  set (rt1 := rt ++ [HostObject (mkTensorHostObject t1)]) in *.
  assert (rt1 !! length rt = Some (HostObject (mkTensorHostObject t1)))
    as Href1.
  { subst rt1. by rewrite lookup_app_r, Nat.sub_diag by lia. }
  assert (0 ≤ ch1 ≤ CInt.INT_MAX ∧ 0 ≤ cw1 ≤ CInt.INT_MAX) as [Hr1 Hr2]
    by lia.
  assert (0 ≤ ch2 ≤ ch1 ∧ 0 ≤ cw2 ≤ cw1) as [Hf2h Hf2w] by lia.
  pose proof (centerCrop_inside w2 h2 rt1 (length rt)
                (mkTensorHostObject t1) dpre ch1 cw1 sH sW ch2 cw2
                Href1 eq_refl Hr1 Hr2 Hc2 Hf2h Hf2w) as Hsecond.
  cbn [tensor] in Hsecond.
  destruct (two_step_offset H ch1 ch2 ltac:(lia) ltac:(lia)) as [Hbh Heh].
  destruct (two_step_offset W cw1 cw2 ltac:(lia) ltac:(lia)) as [Hbw Hew].
  eexists _, _, _, _, _.
  split; [exact Hfirst|]. split; [exact Hsecond|].
  split; [unfold tensor_of; by rewrite lookup_app_r, Nat.sub_diag by lia|].
  split; [unfold sizes; cbn; by rewrite fmap_app|].
  split; [|done].
  intros ipre i j Hlen.
  rewrite (element_offset_last_two _ dpre (mkDim ch2 sH) (mkDim cw2 sW))
    by done.
  rewrite (element_offset_last_two _ dpre (mkDim H sH) (mkDim W sW))
    by done.
  cbn. subst top left. ring.
Qed.

(** A 3 x 9 x 12 tensor cropped to 8 x 8 and then to 7 x 7: the rows start
    at 0 + 0, one above the 1 of the direct crop; the columns at 2 + 0. *)
Lemma crops_compose_witness :
  ∃ v1 rt1 v2 rt2 t2,
    centerCropFunc ATen.narrow 8 8 [VObject 0]
      [HostObject (mkTensorHostObject (contiguous [3; 9; 12]))]
    = Returned (v1, rt1)
    ∧ centerCropFunc ATen.narrow 7 7 [v1] rt1 = Returned (v2, rt2)
    ∧ tensor_of rt2 v2 = Some t2
    ∧ sizes t2 = [3; 7; 7]
    ∧ ∀ c i j,
        element_offset t2 ([c] ++ [i; j])
        = element_offset (contiguous [3; 9; 12]) ([c] ++ [i + 0; j + 2]).
Proof.
  destruct (crops_compose 8 8 7 7
              [HostObject (mkTensorHostObject (contiguous [3; 9; 12]))]
              0 (mkTensorHostObject (contiguous [3; 9; 12]))
              [mkDim 3 108] 9 12 12 1 8 8 7 7)
    as (v1 & rt1 & v2 & rt2 & t2 & H1 & H2 & Ht & Hs & Helem & _);
    try reflexivity; try (unfold CInt.INT_MAX; lia).
  exists v1, rt1, v2, rt2, t2. repeat split; try done.
  intros c i j. by apply (Helem [c]).
Defined.

(** ** Sizes beyond [int] *)

(** X14.  The image size is kept in [int].  A last dimension of 2^31 or
    more, below 2^32, is read as the negative number W - 2^32, and the default
    crop resolves to that negative size.  The invocation then never returns,
    where the image has a shorter side of its own: it throws when
    H < W - 2^31, and for a larger H the subtraction of line 126 overflows
    [int] and nothing is defined. *)
Theorem wide_dimension_is_read_negative
    (height : Z) (rt : Runtime) (ref : nat) (o : TensorHostObject)
    (pre : list Z) (H W : Z) :
  rt !! ref = Some (HostObject o) →
  sizes (tensor o) = pre ++ [H; W] →
  0 ≤ H ≤ CInt.INT_MAX → 2 ^ 31 ≤ W < 2 ^ 32 →
  getImageSize (tensor o) = Some (W - 2 ^ 32, H)
  ∧ resolveCropSize (-1) height (W - 2 ^ 32, H) = (W - 2 ^ 32, W - 2 ^ 32)
  ∧ (∀ v rt',
       centerCropFunc ATen.narrow (-1) height [VObject ref] rt
       ≠ Returned (v, rt'))
  ∧ (H < W - 2 ^ 31 →
     ∃ e, centerCropFunc ATen.narrow (-1) height [VObject ref] rt = Thrown e)
  ∧ (W - 2 ^ 31 ≤ H →
     centerCropFunc ATen.narrow (-1) height [VObject ref] rt = Undefined).
Proof.
  intros Href Hs HH HW.
  assert (CInt.of_Z W = W - 2 ^ 32) as HofW.
  { unfold CInt.of_Z.
    replace (W + 2 ^ 31) with (W - 2 ^ 31 + 1 * 2 ^ 32) by lia.
    rewrite Z.mod_add by lia. rewrite Z.mod_small; lia. }
  assert (CInt.of_Z H = H) as HofH
    by (apply of_Z_in_range, in_range_nonneg, HH).
  assert (resolveCropSize (-1) height (W - 2 ^ 32, H)
          = (W - 2 ^ 32, W - 2 ^ 32)) as Hcrop.
  { unfold resolveCropSize. cbn [fst snd Z.eqb].
    rewrite min_spec. by rewrite Z.min_l by lia. }
  assert (H < W - 2 ^ 31 →
          ∃ e, centerCropFunc ATen.narrow (-1) height [VObject ref] rt
               = Thrown e) as Hthrow.
  { intros Hlt.
    apply (centerCrop_outside (-1) height rt ref o pre H W
             (W - 2 ^ 32) (W - 2 ^ 32)
             ((H - (W - 2 ^ 32)) ÷ 2, (W - 2 ^ 32 - (W - 2 ^ 32)) ÷ 2)
             Href Hs); [lia|lia| | |lia].
    - rewrite HofW, HofH. exact Hcrop.
    - rewrite HofW, HofH. apply cropOffsets_exact;
        unfold CInt.in_range, CInt.INT_MIN, CInt.INT_MAX in *; lia. }
  assert (W - 2 ^ 31 ≤ H →
          centerCropFunc ATen.narrow (-1) height [VObject ref] rt
          = Undefined) as Hundef.
  { intros Hge.
    apply (centerCrop_overflow (-1) height rt ref o pre H W Href Hs).
    rewrite HofW, HofH, Hcrop. apply cropOffsets_overflow. left.
    unfold CInt.in_range, CInt.INT_MIN, CInt.INT_MAX in *. lia. }
  split; [|split; [done|split; [|done]]].
  - rewrite (getImageSize_last_two _ pre H W) by done.
    by rewrite HofW, HofH.
  - intros v rt' Hrun.
    destruct (Z_lt_le_dec H (W - 2 ^ 31)) as [Hlt|Hge].
    + destruct (Hthrow Hlt) as [e He]. congruence.
    + rewrite (Hundef Hge) in Hrun. done.
Qed.

(** A 3 x 2^31 tensor: the width is read as -2^31 and the default crop is
    undefined; a 3 x (2^31 + 10) tensor: the width is read as 10 - 2^31 and
    the default crop throws. *)
Lemma wide_dimension_is_read_negative_witness :
  (getImageSize (contiguous [3; 2 ^ 31]) = Some (- 2 ^ 31, 3)
   ∧ centerCropFunc ATen.narrow (-1) (-1) [VObject 0]
       [HostObject (mkTensorHostObject (contiguous [3; 2 ^ 31]))]
     = Undefined)
  ∧ ∃ e, centerCropFunc ATen.narrow (-1) (-1) [VObject 0]
           [HostObject (mkTensorHostObject (contiguous [3; 2 ^ 31 + 10]))]
         = Thrown e.
Proof.
  split.
  - destruct (wide_dimension_is_read_negative (-1)
                [HostObject (mkTensorHostObject (contiguous [3; 2 ^ 31]))]
                0 (mkTensorHostObject (contiguous [3; 2 ^ 31])) [] 3 (2 ^ 31))
      as (Hsize & _ & _ & _ & Hundef);
      try reflexivity; try (unfold CInt.INT_MAX; lia).
    split; [exact Hsize|]. apply Hundef. lia.
  - destruct (wide_dimension_is_read_negative (-1)
                [HostObject
                   (mkTensorHostObject (contiguous [3; 2 ^ 31 + 10]))]
                0 (mkTensorHostObject (contiguous [3; 2 ^ 31 + 10])) [] 3
                (2 ^ 31 + 10))
      as (_ & _ & _ & Hthrow & _);
      try reflexivity; try (unfold CInt.INT_MAX; lia).
    apply Hthrow. lia.
Defined.
